(** * clip_embed: a shallow embedding of [scripts/clip_embed.py]

    The script reads one JSON request on standard input, builds a CLIP
    sentence-transformer, encodes either an image or a text with it and
    dumps the embedding as JSON on standard output.  Any exception is caught
    at the top of [main], printed on standard error and turned into exit
    status 1.

    Python values are an inductive type, the third-party libraries the
    script calls (json, base64, PIL, sentence_transformers) are the fields of
    a record [World], and the body of [main] runs in a small
    state-and-exception monad whose state logs the library calls and what was
    written on standard output. *)

From Stdlib Require Import List String Ascii ZArith Bool Lia.
From Stdlib Require Import Floats.SpecFloat Numbers.DecimalString.
Import ListNotations.

Set Warnings "-register-all".

Local Open Scope list_scope.
Local Open Scope Z_scope.
Local Open Scope string_scope.

(** ** Python values *)

(** A PIL image, as far as the script can tell images apart: its colour
    mode, its size in pixels (width, height) and its pixel data. *)
Record image : Type := Image {
  img_mode : string;
  img_size : Z * Z;
  img_pixels : list Z
}.

(** The values the script handles.  JSON documents are built from the first
    seven constructors; a dict is the list of its items, in insertion order,
    which is the order [repr] and [json.dump] show.  [PArray] stands for any
    object that has a [tolist] method (numpy.ndarray, numpy scalars,
    torch.Tensor) and carries what that method returns; [PObject] is any
    other object. *)
Inductive pyval : Type :=
| PNone
| PBool (b : bool)
| PInt (z : Z)
| PFloat (f : spec_float)
| PStr (s : string)
| PList (xs : list pyval)
| PDict (kvs : list (string * pyval))
| PArray (cls : string) (contents : pyval)
| PImage (im : image)
| PObject (cls : string).

(** An exception raised inside a library or by the interpreter: its class
    name and the text [str(exc)] gives. *)
Record py_exception : Type := PyExc {
  exc_class : string;
  exc_str : string
}.

(** What the [except Exception as exc] clause of [main] can catch: a
    [ValueError] raised by one of the three [raise] statements of the
    script, or an exception coming out of a library call. *)
Inductive exn : Type :=
| ValueError (msg : string)
| LibError (e : py_exception).

(** [str(exc)] *)
Definition str_exc (e : exn) : string :=
  match e with
  | ValueError msg => msg
  | LibError e => exc_str e
  end.

(** A [SentenceTransformer] instance. *)
Record model : Type := Model { model_name : string }.

(** ** The libraries *)

Definition lib (A : Type) : Type := (py_exception + A)%type.

Record World : Type := {
  (** [SentenceTransformer(name)] *)
  SentenceTransformer : string -> lib model;
  (** [model.encode(x)] *)
  model_encode : model -> pyval -> lib pyval;
  (** [base64.b64decode(s)] on a [str] *)
  b64decode_str : string -> lib (list Z);
  (** [Image.open(BytesIO(bytes))] *)
  Image_open : list Z -> lib image;
  (** pixel data of [image.convert(mode)] *)
  convert_pixels : image -> string -> lib (list Z);
  (** pixel data of [image.resize(size)] *)
  resize_pixels : image -> Z * Z -> lib (list Z);
  (** [float.__repr__] *)
  float_repr : spec_float -> string;
  (** [repr] of a [str] *)
  str_repr : string -> string;
  (** the JSON string literal of a [str] ([encode_basestring_ascii]) *)
  json_string : string -> string
}.

(** ** Builtins *)

(** [bool(v)] *)
Definition truthy (v : pyval) : bool :=
  match v with
  | PNone => false
  | PBool b => b
  | PInt z => negb (z =? 0)%Z
  | PFloat f => match f with S754_zero _ => false | _ => true end
  | PStr s => negb (s =? "")
  | PList xs => match xs with [] => false | _ => true end
  | PDict kvs => match kvs with [] => false | _ => true end
  | PArray _ _ | PImage _ | PObject _ => true
  end.

(** [v == s] for a string literal [s] *)
Definition eq_str (v : pyval) (s : string) : bool :=
  match v with
  | PStr t => t =? s
  | _ => false
  end.

(** [type(v).__name__] *)
Definition type_name (v : pyval) : string :=
  match v with
  | PNone => "NoneType"
  | PBool _ => "bool"
  | PInt _ => "int"
  | PFloat _ => "float"
  | PStr _ => "str"
  | PList _ => "list"
  | PDict _ => "dict"
  | PArray cls _ => cls
  | PImage _ => "Image"
  | PObject cls => cls
  end.

(** Lookup in a dict, the keys of which are distinct. *)
Fixpoint lookup (k : string) (kvs : list (string * pyval)) : option pyval :=
  match kvs with
  | [] => None
  | (k', v) :: rest => if k' =? k then Some v else lookup k rest
  end.

(** [d.get(key, default)] on a dict *)
Definition dict_get (kvs : list (string * pyval)) (key : string) (default : pyval) : pyval :=
  match lookup key kvs with
  | Some v => v
  | None => default
  end.

(** [str(z)] for an [int] *)
Definition int_str (z : Z) : string := NilZero.string_of_int (Z.to_int z).

(** [repr(v)] *)
Fixpoint py_repr (W : World) (v : pyval) : string :=
  match v with
  | PNone => "None"
  | PBool true => "True"
  | PBool false => "False"
  | PInt z => int_str z
  | PFloat f => float_repr W f
  | PStr s => str_repr W s
  | PList xs => "[" ++ String.concat ", " (map (py_repr W) xs) ++ "]"
  | PDict kvs =>
      "{" ++ String.concat ", "
               (map (fun kv => str_repr W (fst kv) ++ ": " ++ py_repr W (snd kv)) kvs)
          ++ "}"
  | PArray cls _ => "<" ++ cls ++ ">"
  | PImage _ => "<Image>"
  | PObject cls => "<" ++ cls ++ ">"
  end.

(** [str(v)], which is what an f-string field [{v}] expands to. *)
Definition py_str (W : World) (v : pyval) : string :=
  match v with
  | PStr s => s
  | _ => py_repr W v
  end.

(** [hasattr(v, "tolist")] *)
Definition has_tolist (v : pyval) : bool :=
  match v with
  | PArray _ _ => true
  | _ => false
  end.

(** [v.tolist()] where [has_tolist v] *)
Definition tolist (v : pyval) : pyval :=
  match v with
  | PArray _ contents => contents
  | _ => v
  end.

(** [isinstance(v, list)] *)
Definition is_list (v : pyval) : bool :=
  match v with
  | PList _ => true
  | _ => false
  end.

(** [len(v)] of a list *)
Definition py_len (v : pyval) : Z :=
  match v with
  | PList xs => Z.of_nat (List.length xs)
  | _ => 0
  end.

(** [v[0]] of a non-empty list *)
Definition item0 (v : pyval) : pyval :=
  match v with
  | PList (x :: _) => x
  | _ => PNone
  end.

(** ** The process: library calls, output streams, exceptions *)

(** The library calls a run makes, in the order it makes them. *)
Inductive event : Type :=
| EvLoadModel (name : string)
| EvB64Decode (arg : pyval)
| EvImageOpen (bytes : list Z)
| EvConvert (im : image) (mode : string)
| EvResize (im : image) (size : Z * Z)
| EvEncode (m : model) (arg : pyval).

Record io : Type := IO {
  calls : list event;
  stdout : string
}.

Definition io0 : io := {| calls := []; stdout := "" |}.

(** A computation either returns or raises, and updates the process state
    either way. *)
Definition M (A : Type) : Type := io -> (exn + A) * io.

Definition ret {A} (a : A) : M A := fun s => (inr a, s).

Definition raise {A} (e : exn) : M A := fun s => (inl e, s).

Definition bind {A B} (c : M A) (k : A -> M B) : M B :=
  fun s =>
    match c s with
    | (inl e, s') => (inl e, s')
    | (inr a, s') => k a s'
    end.

Notation "x <- c ;; k" := (bind c (fun x => k))
  (at level 61, c at next level, right associativity).

(** A library call: logged, then it returns or raises what the library
    does. *)
Definition logged (s : io) (ev : event) : io :=
  {| calls := (calls s ++ [ev])%list; stdout := stdout s |}.

Definition call {A} (ev : event) (r : lib A) : M A :=
  fun s =>
    match r with
    | inl e => (inl (LibError e), logged s ev)
    | inr a => (inr a, logged s ev)
    end.

(** [fp.write(chunk)] on standard output *)
Definition write_stdout (chunk : string) : M unit :=
  fun s => (inr tt, {| calls := calls s; stdout := stdout s ++ chunk |}).

(** ** The script *)

Definition MODEL_NAME : string := "clip-ViT-B-32".

Definition load_model (W : World) : M model :=
  call (EvLoadModel MODEL_NAME) (SentenceTransformer W MODEL_NAME).

(** [base64.b64decode(v)]: a [TypeError] unless [v] is a [str]. *)
Definition b64decode (W : World) (v : pyval) : M (list Z) :=
  call (EvB64Decode v)
    match v with
    | PStr s => b64decode_str W s
    | _ => inl {| exc_class := "TypeError";
                  exc_str := "argument should be a bytes-like object or ASCII string, not '"
                             ++ type_name v ++ "'" |}
    end.

(** [image.convert(mode)]: a new image in that mode, of the same size. *)
Definition convert (W : World) (im : image) (mode : string) : M image :=
  call (EvConvert im mode)
    match convert_pixels W im mode with
    | inl e => inl e
    | inr px => inr {| img_mode := mode; img_size := img_size im; img_pixels := px |}
    end.

(** [image.resize(size)]: a new image of that size, in the same mode. *)
Definition resize (W : World) (im : image) (size : Z * Z) : M image :=
  call (EvResize im size)
    match resize_pixels W im size with
    | inl e => inl e
    | inr px => inr {| img_mode := img_mode im; img_size := size; img_pixels := px |}
    end.

Definition encode_image (W : World) (m : model) (image_base64 : pyval) : M pyval :=
  image_bytes <- b64decode W image_base64 ;;
  opened <- call (EvImageOpen image_bytes) (Image_open W image_bytes) ;;
  image <- convert W opened "RGB" ;;
  image <- resize W image (224, 224) ;;
  embedding <- call (EvEncode m (PImage image)) (model_encode W m (PImage image)) ;;
  if has_tolist embedding then ret (tolist embedding) else ret embedding.

Definition encode_text (W : World) (m : model) (text : pyval) : M pyval :=
  embedding <- call (EvEncode m (PList [text])) (model_encode W m (PList [text])) ;;
  let embedding := if has_tolist embedding then tolist embedding else embedding in
  if is_list embedding && (py_len embedding >? 0) && is_list (item0 embedding)
  then ret (item0 embedding)
  else ret embedding.

(** [payload.get(key, default)]: an [AttributeError] unless [payload] is a
    dict. *)
Definition payload_get (payload : pyval) (key : string) (default : pyval) : M pyval :=
  match payload with
  | PDict kvs => ret (dict_get kvs key default)
  | _ => raise (LibError {| exc_class := "AttributeError";
                            exc_str := "'" ++ type_name payload
                                       ++ "' object has no attribute 'get'" |})
  end.

(** The floats of the JSON encoder ([floatstr]): the three non-finite values
    have names of their own, the others are written by [float.__repr__]. *)
Definition json_float (W : World) (f : spec_float) : string :=
  match f with
  | S754_nan => "NaN"
  | S754_infinity false => "Infinity"
  | S754_infinity true => "-Infinity"
  | _ => float_repr W f
  end.

Definition not_serializable (v : pyval) : exn :=
  LibError {| exc_class := "TypeError";
              exc_str := "Object of type " ++ type_name v
                         ++ " is not JSON serializable" |}.

(** The items of a non-empty list, as [_iterencode_list] yields them: the
    opening bracket or the separator, the item, and the closing bracket at
    the end. *)
Definition dump_items (dump : pyval -> M unit) : bool -> list pyval -> M unit :=
  fix items (first : bool) (xs : list pyval) : M unit :=
    match xs with
    | [] => write_stdout "]"
    | x :: rest =>
        _ <- write_stdout (if first then "[" else ", ") ;;
        _ <- dump x ;;
        items false rest
    end.

(** The items of a non-empty dict, as [_iterencode_dict] yields them after
    the opening brace. *)
Definition dump_pairs (W : World) (dump : pyval -> M unit)
  : bool -> list (string * pyval) -> M unit :=
  fix items (first : bool) (kvs : list (string * pyval)) : M unit :=
    match kvs with
    | [] => write_stdout "}"
    | kv :: rest =>
        _ <- write_stdout (if first then "" else ", ") ;;
        _ <- write_stdout (json_string W (fst kv)) ;;
        _ <- write_stdout ": " ;;
        _ <- dump (snd kv) ;;
        items false rest
    end.

(** [json.dump(v, sys.stdout)].  The encoder is a generator and [json.dump]
    writes each chunk as it comes, so that what precedes an object that
    cannot be serialized is on standard output when the [TypeError] is
    raised. *)
Fixpoint json_dump (W : World) (v : pyval) : M unit :=
  match v with
  | PNone => write_stdout "null"
  | PBool true => write_stdout "true"
  | PBool false => write_stdout "false"
  | PInt z => write_stdout (int_str z)
  | PFloat f => write_stdout (json_float W f)
  | PStr s => write_stdout (json_string W s)
  | PList [] => write_stdout "[]"
  | PList xs => dump_items (json_dump W) true xs
  | PDict [] => write_stdout "{}"
  | PDict kvs => _ <- write_stdout "{" ;; dump_pairs W (json_dump W) true kvs
  | PArray _ _ | PImage _ | PObject _ => raise (not_serializable v)
  end.

(** [json.load(sys.stdin)]: standard input is given by what the parser makes
    of it, a document or the exception it raises. *)
Definition json_load (stdin : lib pyval) : M pyval :=
  match stdin with
  | inl e => raise (LibError e)
  | inr v => ret v
  end.

(** Lines 38 to 54 of [main]: from the request to the embedding. *)
Definition embed (W : World) (stdin : lib pyval) : M pyval :=
  payload <- json_load stdin ;;
  mode <- payload_get payload "mode" PNone ;;
  if negb (truthy mode) then raise (ValueError "Missing mode") else
  m <- load_model W ;;
  if eq_str mode "image" then
    image_base64 <- payload_get payload "imageBase64" PNone ;;
    if negb (truthy image_base64) then raise (ValueError "Missing imageBase64") else
    encode_image W m image_base64
  else if eq_str mode "text" then
    text <- payload_get payload "text" (PStr "") ;;
    encode_text W m text
  else raise (ValueError ("Unsupported mode: " ++ py_str W mode)).

(** The body of the [try] statement, lines 38 to 56. *)
Definition main_try (W : World) (stdin : lib pyval) : M unit :=
  output <- embed W stdin ;;
  json_dump W output.

Definition newline : string := String (ascii_of_nat 10) "".

(** What a run leaves behind. *)
Record outcome : Type := Outcome {
  exit_code : Z;
  out : string;
  err : string;
  log : list event
}.

(** [main]: the [try] body, and the handler that prints [str(exc)] on
    standard error and exits with status 1. *)
Definition main (W : World) (stdin : lib pyval) : outcome :=
  match main_try W stdin io0 with
  | (inr _, s) =>
      {| exit_code := 0; out := stdout s; err := ""; log := calls s |}
  | (inl exc, s) =>
      {| exit_code := 1; out := stdout s; err := str_exc exc ++ newline;
         log := calls s |}
  end.

(** Standard input holding the JSON object [kvs]. *)
Definition request (kvs : list (string * pyval)) : lib pyval := inr (PDict kvs).

(** ** JSON text *)

(** The texts of all the items, if each has one. *)
Definition texts {A} (text : A -> option string) : list A -> option (list string) :=
  fix each (xs : list A) : option (list string) :=
    match xs with
    | [] => Some []
    | x :: rest =>
        match text x, each rest with
        | Some t, Some ts => Some (t :: ts)
        | _, _ => None
        end
    end.

(** [json.dumps(v)]: the whole text of a serializable value, [None] for a
    value that holds an object the encoder rejects. *)
Fixpoint dumps (W : World) (v : pyval) : option string :=
  match v with
  | PNone => Some "null"
  | PBool true => Some "true"
  | PBool false => Some "false"
  | PInt z => Some (int_str z)
  | PFloat f => Some (json_float W f)
  | PStr s => Some (json_string W s)
  | PList xs =>
      match texts (dumps W) xs with
      | Some ts => Some ("[" ++ String.concat ", " ts ++ "]")
      | None => None
      end
  | PDict kvs =>
      match
        texts (fun kv =>
                 match dumps W (snd kv) with
                 | Some t => Some (json_string W (fst kv) ++ ": " ++ t)
                 | None => None
                 end) kvs
      with
      | Some ts => Some ("{" ++ String.concat ", " ts ++ "}")
      | None => None
      end
  | PArray _ _ | PImage _ | PObject _ => None
  end.

(** ** Induction on Python values *)

Section PyvalInduction.
Variable P : pyval -> Prop.
Hypothesis HNone : P PNone.
Hypothesis HBool : forall b, P (PBool b).
Hypothesis HInt : forall z, P (PInt z).
Hypothesis HFloat : forall f, P (PFloat f).
Hypothesis HStr : forall s, P (PStr s).
Hypothesis HList : forall xs, Forall P xs -> P (PList xs).
Hypothesis HDict : forall kvs, Forall (fun kv => P (snd kv)) kvs -> P (PDict kvs).
Hypothesis HArray : forall cls c, P c -> P (PArray cls c).
Hypothesis HImage : forall im, P (PImage im).
Hypothesis HObject : forall cls, P (PObject cls).

Fixpoint pyval_nested_ind (v : pyval) : P v :=
  match v with
  | PNone => HNone
  | PBool b => HBool b
  | PInt z => HInt z
  | PFloat f => HFloat f
  | PStr s => HStr s
  | PList xs =>
      HList xs
        ((fix all (xs : list pyval) : Forall P xs :=
            match xs with
            | [] => Forall_nil P
            | x :: rest => Forall_cons x (pyval_nested_ind x) (all rest)
            end) xs)
  | PDict kvs =>
      HDict kvs
        ((fix all (kvs : list (string * pyval)) : Forall (fun kv => P (snd kv)) kvs :=
            match kvs with
            | [] => Forall_nil _
            | kv :: rest =>
                Forall_cons kv
                  (match kv return P (snd kv) with (_, x) => pyval_nested_ind x end)
                  (all rest)
            end) kvs)
  | PArray cls c => HArray cls c (pyval_nested_ind c)
  | PImage im => HImage im
  | PObject cls => HObject cls
  end.
End PyvalInduction.

(** ** Auxiliary definitions for the serializer *)

(** Standard output after one more piece of text. *)
Definition emit (s : io) (t : string) : io :=
  {| calls := calls s; stdout := stdout s ++ t |}.

(** What [dump_items] writes when every item has a text. *)
Definition items_text (first : bool) (ts : list string) : string :=
  match ts with
  | [] => "]"
  | _ => (if first then "[" else ", ") ++ String.concat ", " ts ++ "]"
  end.

(** What [dump_pairs] writes when every value has a text. *)
Definition pairs_text (first : bool) (ts : list string) : string :=
  match ts with
  | [] => "}"
  | _ => (if first then "" else ", ") ++ String.concat ", " ts ++ "}"
  end.

(** [json_dump] against [dumps]: the whole text is written when there is
    one, and the [TypeError] of some object comes out after some text
    otherwise.  The call log is untouched either way. *)
Definition dumped (W : World) (v : pyval) (s : io) : Prop :=
  match dumps W v with
  | Some t => json_dump W v s = (inr tt, emit s t)
  | None => exists x t, json_dump W v s = (inl (not_serializable x), emit s t)
  end.

(** The text of a dict entry. *)
Definition pair_text (W : World) (kv : string * pyval) : option string :=
  match dumps W (snd kv) with
  | Some t => Some (json_string W (fst kv) ++ ": " ++ t)
  | None => None
  end.


(** ** The specification's reading of some operations *)

(** The unwrapping of the text path in the specification's words: a sequence
    containing one inner sequence gives that inner sequence, any other result
    is returned as it is. *)
Definition spec_unwrap (r : pyval) : pyval :=
  match r with
  | PList [PList inner] => PList inner
  | _ => r
  end.

(** The computation raised one of the script's own [ValueError]s. *)
Definition validation_error {A} (r : exn + A) : Prop :=
  exists msg, r = inl (ValueError msg).

(** The invalid requests in the specification's words: [mode] is absent, or
    [mode] is "image" and [imageBase64] is absent or empty, or [mode] is
    neither "image" nor "text". *)
Definition spec_invalid (kvs : list (string * pyval)) : Prop :=
  lookup "mode" kvs = None
  \/ (lookup "mode" kvs = Some (PStr "image")
      /\ (lookup "imageBase64" kvs = None \/ lookup "imageBase64" kvs = Some (PStr "")))
  \/ (lookup "mode" kvs <> Some (PStr "image") /\ lookup "mode" kvs <> Some (PStr "text")).

(** The requests on which the script raises a [ValueError]: [mode] is absent
    or falsy; or the model could be built and either [mode] is "image" and
    [imageBase64] is absent or falsy, or [mode] is neither "image" nor
    "text". *)
Definition invalid (W : World) (kvs : list (string * pyval)) : Prop :=
  let mode := dict_get kvs "mode" PNone in
  truthy mode = false
  \/ ((exists m, SentenceTransformer W MODEL_NAME = inr m)
      /\ ((mode = PStr "image" /\ truthy (dict_get kvs "imageBase64" PNone) = false)
          \/ (mode <> PStr "image" /\ mode <> PStr "text"))).

(** ** The ways through the request decoder *)

(** The process state once the model constructor has been called. *)
Definition loaded : io := logged io0 (EvLoadModel MODEL_NAME).

(** The six ways a JSON object goes through lines 39 to 54, with the result
    of each. *)
Inductive request_case (W : World) (kvs : list (string * pyval))
  : (exn + pyval) * io -> Prop :=
| MissingMode :
    truthy (dict_get kvs "mode" PNone) = false ->
    request_case W kvs (inl (ValueError "Missing mode"), io0)
| ModelFailed e :
    truthy (dict_get kvs "mode" PNone) = true ->
    SentenceTransformer W MODEL_NAME = inl e ->
    request_case W kvs (inl (LibError e), loaded)
| MissingImage m :
    SentenceTransformer W MODEL_NAME = inr m ->
    dict_get kvs "mode" PNone = PStr "image" ->
    truthy (dict_get kvs "imageBase64" PNone) = false ->
    request_case W kvs (inl (ValueError "Missing imageBase64"), loaded)
| ImagePath m :
    SentenceTransformer W MODEL_NAME = inr m ->
    dict_get kvs "mode" PNone = PStr "image" ->
    truthy (dict_get kvs "imageBase64" PNone) = true ->
    request_case W kvs (encode_image W m (dict_get kvs "imageBase64" PNone) loaded)
| TextPath m :
    SentenceTransformer W MODEL_NAME = inr m ->
    dict_get kvs "mode" PNone = PStr "text" ->
    request_case W kvs (encode_text W m (dict_get kvs "text" (PStr "")) loaded)
| UnsupportedMode m :
    truthy (dict_get kvs "mode" PNone) = true ->
    SentenceTransformer W MODEL_NAME = inr m ->
    dict_get kvs "mode" PNone <> PStr "image" ->
    dict_get kvs "mode" PNone <> PStr "text" ->
    request_case W kvs
      (inl (ValueError ("Unsupported mode: " ++ py_str W (dict_get kvs "mode" PNone))),
       loaded).

(** The response contract in the specification's words: either the whole
    embedding is on standard output and the status is 0, or the message of
    the failure is on standard error, the status is 1 and standard output is
    empty. *)
Definition all_or_nothing (W : World) (stdin : lib pyval) (o : outcome) : Prop :=
  (exit_code o = 0%Z
   /\ exists v t, fst (embed W stdin io0) = inr v /\ dumps W v = Some t /\ out o = t)
  \/ (exit_code o = 1%Z
      /\ (exists e, err o = str_exc e ++ newline)
      /\ out o = "").

(** ** Counting calls *)

Definition is_load (ev : event) : bool :=
  match ev with
  | EvLoadModel _ => true
  | _ => false
  end.

Definition is_encode (ev : event) : bool :=
  match ev with
  | EvEncode _ _ => true
  | _ => false
  end.

(** How many times the model constructor was called. *)
Definition loads (l : list event) : nat := List.length (filter is_load l).

(** How many times [model.encode] was called. *)
Definition encodes (l : list event) : nat := List.length (filter is_encode l).

(** The life of the model in the specification's words: it is built only
    when no validation error is raised, and once built it serves exactly one
    encode call. *)
Definition spec_model_lifecycle (W : World) (stdin : lib pyval) : Prop :=
  (loads (log (main W stdin)) <> 0%nat ->
   ~ validation_error (fst (main_try W stdin io0)))
  /\ (loads (log (main W stdin)) <> 0%nat ->
      (exists m, SentenceTransformer W MODEL_NAME = inr m) ->
      encodes (log (main W stdin)) = 1%nat).

(** ** Messages *)

(** [sub in s] *)
Fixpoint contains (sub s : string) : bool :=
  String.prefix sub s
  || match s with
     | EmptyString => false
     | String _ rest => contains sub rest
     end.

(** The report on an unsupported mode in the specification's words: exit
    status 1 and an error message that names the mode. *)
Definition spec_names_mode (W : World) (kvs : list (string * pyval)) : Prop :=
  exit_code (main W (request kvs)) = 1%Z
  /\ contains (py_str W (dict_get kvs "mode" PNone)) (err (main W (request kvs))) = true.

(** ** Sample worlds *)

Definition dquote : string := String (ascii_of_nat 34) "".

Definition half : spec_float := S754_finite false 1 (-1).
Definition quarter : spec_float := S754_finite true 1 (-2).

(** A stand-in for [float.__repr__]: sign, mantissa and binary exponent. *)
Definition demo_float_repr (f : spec_float) : string :=
  match f with
  | S754_zero false => "0.0"
  | S754_zero true => "-0.0"
  | S754_infinity false => "inf"
  | S754_infinity true => "-inf"
  | S754_nan => "nan"
  | S754_finite s m e =>
      (if s then "-" else "") ++ int_str (Zpos m) ++ "p" ++ int_str e
  end.

(** The character codes of a string. *)
Fixpoint codes (s : string) : list Z :=
  match s with
  | EmptyString => []
  | String c rest => Z.of_nat (nat_of_ascii c) :: codes rest
  end.

(** The encoder of [demo_world]: a two-dimensional vector for an image, one
    row per item for a batch, both as arrays. *)
Definition demo_encode (m : model) (x : pyval) : lib pyval :=
  match x with
  | PImage im =>
      inr (PArray "ndarray"
             (PList [PFloat half; PFloat (match img_size im with
                                          | (224, 224) => quarter
                                          | _ => S754_nan
                                          end)]))
  | PList xs =>
      inr (PArray "ndarray"
             (PList (map (fun x => PList [PFloat quarter; PFloat half]) xs)))
  | _ => inl {| exc_class := "ValueError"; exc_str := "cannot encode" |}
  end.

(** A world in which every library call succeeds: the model is available,
    any non-empty byte string is a 640x480 RGBA picture. *)
Definition demo_world : World := {|
  SentenceTransformer := fun name => inr (Model name);
  model_encode := demo_encode;
  b64decode_str := fun s => inr (codes s);
  Image_open := fun bytes =>
    match bytes with
    | [] => inl {| exc_class := "UnidentifiedImageError";
                   exc_str := "cannot identify image file" |}
    | _ => inr {| img_mode := "RGBA"; img_size := (640, 480); img_pixels := bytes |}
    end;
  convert_pixels := fun im _ => inr (img_pixels im);
  resize_pixels := fun im _ => inr (img_pixels im);
  float_repr := demo_float_repr;
  str_repr := fun s => "'" ++ s ++ "'";
  json_string := fun s => dquote ++ s ++ dquote
|}.

(** The same world without the model weights: construction fails. *)
Definition offline_world : World := {|
  SentenceTransformer := fun _ =>
    inl {| exc_class := "OSError"; exc_str := "model weights are not available" |};
  model_encode := model_encode demo_world;
  b64decode_str := b64decode_str demo_world;
  Image_open := Image_open demo_world;
  convert_pixels := convert_pixels demo_world;
  resize_pixels := resize_pixels demo_world;
  float_repr := float_repr demo_world;
  str_repr := str_repr demo_world;
  json_string := json_string demo_world
|}.

(** The world of [demo_world] with a Pillow that identifies no picture and a
    base64 decoder that rejects everything. *)
Definition blind_world : World := {|
  SentenceTransformer := SentenceTransformer demo_world;
  model_encode := model_encode demo_world;
  b64decode_str := fun _ =>
    inl {| exc_class := "binascii.Error"; exc_str := "Incorrect padding" |};
  Image_open := fun _ =>
    inl {| exc_class := "UnidentifiedImageError";
           exc_str := "cannot identify image file" |};
  convert_pixels := convert_pixels demo_world;
  resize_pixels := resize_pixels demo_world;
  float_repr := float_repr demo_world;
  str_repr := fun s => s;
  json_string := json_string demo_world
|}.

(** The world of [demo_world] with a model whose [encode] raises. *)
Definition broken_encoder_world : World := {|
  SentenceTransformer := SentenceTransformer demo_world;
  model_encode := fun _ _ =>
    inl {| exc_class := "RuntimeError"; exc_str := "CUDA out of memory" |};
  b64decode_str := b64decode_str demo_world;
  Image_open := Image_open demo_world;
  convert_pixels := convert_pixels demo_world;
  resize_pixels := resize_pixels demo_world;
  float_repr := float_repr demo_world;
  str_repr := str_repr demo_world;
  json_string := json_string demo_world
|}.

(** A world whose encoder answers with the plain Python value [answer],
    whatever it is asked. *)
Definition answering (answer : pyval) : World := {|
  SentenceTransformer := SentenceTransformer demo_world;
  model_encode := fun _ _ => inr answer;
  b64decode_str := b64decode_str demo_world;
  Image_open := Image_open demo_world;
  convert_pixels := convert_pixels demo_world;
  resize_pixels := resize_pixels demo_world;
  float_repr := float_repr demo_world;
  str_repr := str_repr demo_world;
  json_string := json_string demo_world
|}.

(** Two rows, as a batch of two texts would give. *)
Definition two_rows : pyval := PList [PList [PFloat half]; PList [PFloat quarter]].

(** ** Tactics *)

(** Case analysis on a scrutinee of the goal that is not itself a case
    analysis. *)
Ltac break_match :=
  match goal with
  | |- context [match ?x with _ => _ end] =>
      lazymatch x with
      | context [match _ with _ => _ end] => fail
      | _ => destruct x eqn:?
      end
  end.

(** ** The shape of the call log *)

(** Which library function an event is a call of. *)
Inductive call_kind : Type :=
| KLoad | KB64Decode | KOpen | KConvert | KResize | KEncode.

Definition kind (ev : event) : call_kind :=
  match ev with
  | EvLoadModel _ => KLoad
  | EvB64Decode _ => KB64Decode
  | EvImageOpen _ => KOpen
  | EvConvert _ _ => KConvert
  | EvResize _ _ => KResize
  | EvEncode _ _ => KEncode
  end.

(** The calls of a whole image run and of a whole text run. *)
Definition image_calls : list call_kind :=
  [KLoad; KB64Decode; KOpen; KConvert; KResize; KEncode].

Definition text_calls : list call_kind := [KLoad; KEncode].

Definition is_prefix {A} (l full : list A) : Prop :=
  exists rest, full = (l ++ rest)%list.

(** The arguments the script can pass to a library: the one model name, a
    truthy payload, the mode RGB, the size 224 by 224 on an RGB image, and
    for the encoder either an RGB image of that size or a batch of one
    item. *)
Definition expected_call (ev : event) : Prop :=
  match ev with
  | EvLoadModel name => name = MODEL_NAME
  | EvB64Decode v => truthy v = true
  | EvImageOpen _ => True
  | EvConvert _ mode => mode = "RGB"
  | EvResize im size => img_mode im = "RGB" /\ size = (224, 224)%Z
  | EvEncode _ (PImage im) => img_mode im = "RGB" /\ img_size im = (224, 224)%Z
  | EvEncode _ (PList [_]) => True
  | EvEncode _ _ => False
  end.

(** ** Numeric vectors *)

(** [isinstance(v, (int, float))], booleans apart. *)
Definition is_number (v : pyval) : bool :=
  match v with
  | PInt _ | PFloat _ => true
  | _ => false
  end.

(** The JSON text of a number. *)
Definition number_text (W : World) (v : pyval) : string :=
  match v with
  | PInt z => int_str z
  | PFloat f => json_float W f
  | _ => ""
  end.

(** The JSON text of a list of numbers. *)
Definition vector_text (W : World) (xs : list pyval) : string :=
  "[" ++ String.concat ", " (map (number_text W) xs) ++ "]".
(** ** The serializer *)

Lemma append_assoc (a b c : string) : (a ++ b) ++ c = a ++ (b ++ c).
Proof. induction a as [|ch a IH]; simpl; [reflexivity | now rewrite IH]. Qed.

Lemma append_nil_r (a : string) : a ++ "" = a.
Proof. induction a as [|ch a IH]; simpl; [reflexivity | now rewrite IH]. Qed.

Lemma emit_emit (s : io) (a b : string) : emit (emit s a) b = emit s (a ++ b).
Proof. unfold emit; simpl. now rewrite append_assoc. Qed.

Lemma emit_nil (s : io) : emit s "" = s.
Proof. destruct s; unfold emit; simpl. now rewrite append_nil_r. Qed.

Lemma items_text_cons (first : bool) (t : string) (ts : list string) :
  items_text first (t :: ts) = (if first then "[" else ", ") ++ t ++ items_text false ts.
Proof.
  destruct ts as [|t' ts]; simpl; [reflexivity|].
  f_equal. now rewrite !append_assoc.
Qed.

Lemma pairs_text_cons (first : bool) (t : string) (ts : list string) :
  pairs_text first (t :: ts) = (if first then "" else ", ") ++ t ++ pairs_text false ts.
Proof.
  destruct ts as [|t' ts]; simpl; [reflexivity|].
  f_equal. now rewrite !append_assoc.
Qed.

Lemma dump_items_cons (dump : pyval -> M unit) (first : bool) x rest (s : io) :
  dump_items dump first (x :: rest) s =
  match dump x (emit s (if first then "[" else ", ")) with
  | (inl e, s') => (inl e, s')
  | (inr _, s') => dump_items dump false rest s'
  end.
Proof. reflexivity. Qed.

Lemma dump_pairs_cons (W : World) (dump : pyval -> M unit) (first : bool) kv rest (s : io) :
  dump_pairs W dump first (kv :: rest) s =
  match dump (snd kv) (emit s ((if first then "" else ", ") ++ json_string W (fst kv) ++ ": ")) with
  | (inl e, s') => (inl e, s')
  | (inr _, s') => dump_pairs W dump false rest s'
  end.
Proof.
  simpl. unfold bind, write_stdout. simpl.
  change {| calls := calls s;
            stdout := ((stdout s ++ (if first then "" else ", ")) ++ json_string W (fst kv)) ++ ": " |}
    with (emit (emit (emit s (if first then "" else ", ")) (json_string W (fst kv))) ": ").
  now rewrite !emit_emit.
Qed.

Lemma dump_items_texts (W : World) (xs : list pyval) :
  Forall (fun x => forall s, dumped W x s) xs ->
  forall first s,
    match texts (dumps W) xs with
    | Some ts => dump_items (json_dump W) first xs s = (inr tt, emit s (items_text first ts))
    | None => exists x t, dump_items (json_dump W) first xs s = (inl (not_serializable x), emit s t)
    end.
Proof.
  induction 1 as [|x xs Hx _ IH]; intros first s.
  - reflexivity.
  - rewrite dump_items_cons. cbn [texts].
    specialize (Hx (emit s (if first then "[" else ", "))). unfold dumped in Hx.
    destruct (dumps W x) as [t|].
    + rewrite Hx. specialize (IH false (emit (emit s (if first then "[" else ", ")) t)).
      fold (texts (dumps W)).
      destruct (texts (dumps W) xs) as [ts|].
      * rewrite IH, items_text_cons, !emit_emit. reflexivity.
      * destruct IH as (e & t' & IH). exists e. rewrite IH, !emit_emit. eauto.
    + destruct Hx as (e & t & Hx). rewrite Hx, emit_emit. eauto.
Qed.

Lemma dump_pairs_texts (W : World) (kvs : list (string * pyval)) :
  Forall (fun kv => forall s, dumped W (snd kv) s) kvs ->
  forall first s,
    match texts (pair_text W) kvs with
    | Some ts => dump_pairs W (json_dump W) first kvs s = (inr tt, emit s (pairs_text first ts))
    | None => exists x t, dump_pairs W (json_dump W) first kvs s = (inl (not_serializable x), emit s t)
    end.
Proof.
  induction 1 as [|kv kvs Hx _ IH]; intros first s.
  - reflexivity.
  - rewrite dump_pairs_cons. cbn [texts]. unfold pair_text at 1.
    specialize (Hx (emit s ((if first then "" else ", ") ++ json_string W (fst kv) ++ ": "))).
    unfold dumped in Hx.
    destruct (dumps W (snd kv)) as [t|].
    + rewrite Hx.
      specialize (IH false (emit (emit s ((if first then "" else ", ")
                                          ++ json_string W (fst kv) ++ ": ")) t)).
      fold (texts (pair_text W)).
      destruct (texts (pair_text W) kvs) as [ts|].
      * rewrite IH, pairs_text_cons, !emit_emit, !append_assoc. reflexivity.
      * destruct IH as (e & t' & IH). exists e. rewrite IH, !emit_emit. eauto.
    + destruct Hx as (e & t & Hx). rewrite Hx, emit_emit. eauto.
Qed.

Lemma json_dump_dumps (W : World) (v : pyval) : forall s, dumped W v s.
Proof.
  induction v as [| [|] | | | | xs IH | kvs IH | | |] using pyval_nested_ind;
    intros st; unfold dumped; try reflexivity.
  - pose proof (dump_items_texts W xs IH true st) as H.
    destruct xs as [|x xs]; [reflexivity|].
    cbn [dumps json_dump].
    destruct (texts (dumps W) (x :: xs)) as [[|t ts]|] eqn:E; try exact H.
    simpl in E. destruct (dumps W x), (texts (dumps W) xs); discriminate.
  - pose proof (dump_pairs_texts W kvs IH true (emit st "{")) as H.
    destruct kvs as [|kv kvs]; [reflexivity|].
    change (json_dump W (PDict (kv :: kvs)) st)
      with (dump_pairs W (json_dump W) true (kv :: kvs) (emit st "{")).
    cbn [dumps]. fold (pair_text W).
    destruct (texts (pair_text W) (kv :: kvs)) as [[|t ts]|] eqn:E.
    + simpl in E. destruct (pair_text W kv), (texts (pair_text W) kvs); discriminate.
    + rewrite H, emit_emit. reflexivity.
    + destruct H as (e & t & H). rewrite H, emit_emit. eauto.
  - simpl. unfold raise. eexists _, "". now rewrite emit_nil.
  - simpl. unfold raise. eexists _, "". now rewrite emit_nil.
  - simpl. unfold raise. eexists _, "". now rewrite emit_nil.
Qed.

(** ** The shape of a run *)

(** [main] in two steps: the embedding, then its serialization. *)
Lemma main_embed (W : World) (stdin : lib pyval) :
  main W stdin =
  match embed W stdin io0 with
  | (inl e, s) =>
      {| exit_code := 1; out := stdout s; err := str_exc e ++ newline; log := calls s |}
  | (inr v, s) =>
      match json_dump W v s with
      | (inr _, s') => {| exit_code := 0; out := stdout s'; err := ""; log := calls s' |}
      | (inl e, s') =>
          {| exit_code := 1; out := stdout s'; err := str_exc e ++ newline; log := calls s' |}
      end
  end.
Proof.
  unfold main, main_try, bind.
  destruct (embed W stdin io0) as [[e|v] s]; reflexivity.
Qed.

(** The text path, call by call. *)
Lemma encode_text_run (W : World) (m : model) (text : pyval) (s : io) :
  encode_text W m text s =
  match model_encode W m (PList [text]) with
  | inl e => (inl (LibError e), logged s (EvEncode m (PList [text])))
  | inr r =>
      let r' := if has_tolist r then tolist r else r in
      (inr (if is_list r' && (py_len r' >? 0)%Z && is_list (item0 r') then item0 r' else r'),
       logged s (EvEncode m (PList [text])))
  end.
Proof.
  unfold encode_text, bind, call.
  destruct (model_encode W m (PList [text])) as [e|r]; [reflexivity|].
  cbv zeta.
  destruct (is_list _ && _ && _); reflexivity.
Qed.

(** The request decoder on a JSON object, check by check. *)
Lemma embed_request (W : World) (kvs : list (string * pyval)) (s : io) :
  embed W (inr (PDict kvs)) s =
  let mode := dict_get kvs "mode" PNone in
  if negb (truthy mode) then (inl (ValueError "Missing mode"), s) else
  match SentenceTransformer W MODEL_NAME with
  | inl e => (inl (LibError e), logged s (EvLoadModel MODEL_NAME))
  | inr m =>
      let s1 := logged s (EvLoadModel MODEL_NAME) in
      if eq_str mode "image" then
        let image_base64 := dict_get kvs "imageBase64" PNone in
        if negb (truthy image_base64)
        then (inl (ValueError "Missing imageBase64"), s1)
        else encode_image W m image_base64 s1
      else if eq_str mode "text" then
        encode_text W m (dict_get kvs "text" (PStr "")) s1
      else (inl (ValueError ("Unsupported mode: " ++ py_str W mode)), s1)
  end.
Proof.
  unfold embed, json_load, payload_get, load_model, bind, ret, raise, call.
  cbv zeta.
  destruct (negb (truthy (dict_get kvs "mode" PNone))); [reflexivity|].
  destruct (SentenceTransformer W MODEL_NAME) as [e|m]; [reflexivity|].
  destruct (eq_str (dict_get kvs "mode" PNone) "image").
  - destruct (negb (truthy (dict_get kvs "imageBase64" PNone))); reflexivity.
  - destruct (eq_str (dict_get kvs "mode" PNone) "text"); reflexivity.
Qed.

Lemma json_dump_calls (W : World) (v : pyval) (s : io) :
  calls (snd (json_dump W v s)) = calls s.
Proof.
  pose proof (json_dump_dumps W v s) as H. unfold dumped in H.
  destruct (dumps W v) as [t|].
  - now rewrite H.
  - destruct H as (e & t & H). now rewrite H.
Qed.

(** The serializer does not call the libraries: the log of a run is the log
    of the embedding step. *)
Lemma main_log (W : World) (stdin : lib pyval) :
  log (main W stdin) = calls (snd (embed W stdin io0)).
Proof.
  rewrite main_embed.
  destruct (embed W stdin io0) as [[e|v] s]; [reflexivity|].
  pose proof (json_dump_calls W v s) as H.
  destruct (json_dump W v s) as [[e|u] s']; exact H.
Qed.

(** A run exits with status 0 exactly when the embedding step returns a
    value that has a JSON text. *)
Lemma main_exit_0 (W : World) (stdin : lib pyval) :
  exit_code (main W stdin) = 0%Z <->
  exists v t, fst (embed W stdin io0) = inr v /\ dumps W v = Some t.
Proof.
  rewrite main_embed.
  destruct (embed W stdin io0) as [[e|v] s]; simpl.
  - split; [discriminate | intros (v & t & H & _); discriminate].
  - pose proof (json_dump_dumps W v s) as H. unfold dumped in H.
    destruct (dumps W v) as [t|] eqn:E.
    + rewrite H. simpl. split; eauto.
    + destruct H as (e & t & H). rewrite H. simpl.
      split; [discriminate | intros (v' & t' & Hv & Ht)].
      injection Hv as <-. congruence.
Qed.

(** The image path, call by call, when every library call succeeds. *)
Lemma encode_image_run (W : World) (m : model) (b64 : string) (s : io)
      bytes im px1 px2 r :
  b64decode_str W b64 = inr bytes ->
  Image_open W bytes = inr im ->
  convert_pixels W im "RGB" = inr px1 ->
  resize_pixels W (Image "RGB" (img_size im) px1) (224, 224)%Z = inr px2 ->
  model_encode W m (PImage (Image "RGB" (224, 224)%Z px2)) = inr r ->
  encode_image W m (PStr b64) s =
  (inr (tolist r),
   {| calls := (calls s ++ [EvB64Decode (PStr b64); EvImageOpen bytes; EvConvert im "RGB";
                            EvResize (Image "RGB" (img_size im) px1) (224, 224)%Z;
                            EvEncode m (PImage (Image "RGB" (224, 224)%Z px2))])%list;
      stdout := stdout s |}).
Proof.
  intros Hb Ho Hc Hr He.
  unfold encode_image, bind, b64decode, convert, resize, call, logged.
  rewrite Hb; cbv beta iota. rewrite Ho; cbv beta iota.
  rewrite Hc; cbv beta iota. rewrite Hr; cbv beta iota.
  cbn [img_mode]. rewrite He; cbv beta iota.
  cbn [calls stdout]. rewrite <- !app_assoc. cbn [app].
  destruct r; reflexivity.
Qed.

(** Only the three keys the script reads matter. *)
Lemma embed_three_keys (W : World) (kvs kvs' : list (string * pyval)) (s : io) :
  lookup "mode" kvs' = lookup "mode" kvs ->
  lookup "imageBase64" kvs' = lookup "imageBase64" kvs ->
  lookup "text" kvs' = lookup "text" kvs ->
  embed W (inr (PDict kvs')) s = embed W (inr (PDict kvs)) s.
Proof.
  intros Hm Hi Ht. rewrite !embed_request. unfold dict_get.
  now rewrite Hm, Hi, Ht.
Qed.

Lemma main_three_keys (W : World) (kvs kvs' : list (string * pyval)) :
  lookup "mode" kvs' = lookup "mode" kvs ->
  lookup "imageBase64" kvs' = lookup "imageBase64" kvs ->
  lookup "text" kvs' = lookup "text" kvs ->
  main W (inr (PDict kvs')) = main W (inr (PDict kvs)).
Proof.
  intros Hm Hi Ht. rewrite !main_embed.
  now rewrite (embed_three_keys W kvs kvs' io0 Hm Hi Ht).
Qed.

(** A text request, from the model to the exit status. *)
Lemma main_text_request (W : World) (kvs : list (string * pyval)) (m : model) :
  lookup "mode" kvs = Some (PStr "text") ->
  SentenceTransformer W MODEL_NAME = inr m ->
  embed W (inr (PDict kvs)) io0 =
  encode_text W m (dict_get kvs "text" (PStr "")) (logged io0 (EvLoadModel MODEL_NAME)).
Proof.
  intros Hm Hl. rewrite embed_request. unfold dict_get at 1 2 3.
  rewrite Hm, Hl. reflexivity.
Qed.

Lemma eq_str_true (v : pyval) (s : string) : eq_str v s = true <-> v = PStr s.
Proof.
  destruct v; simpl; try (split; [discriminate | intros H; discriminate H]).
  rewrite String.eqb_eq. split; [now intros -> | now intros [= ->]].
Qed.

Lemma eq_str_false (v : pyval) (s : string) : eq_str v s = false <-> v <> PStr s.
Proof.
  rewrite <- eq_str_true. destruct (eq_str v s); split; congruence.
Qed.

(** The two encoders raise library errors only. *)
Lemma encode_image_raises (W : World) (m : model) (b : pyval) (s : io) :
  ~ validation_error (fst (encode_image W m b s)).
Proof.
  intros (msg & H). revert H.
  unfold encode_image, bind, b64decode, convert, resize, call, ret.
  repeat break_match; cbn [fst]; discriminate.
Qed.

Lemma encode_text_raises (W : World) (m : model) (text : pyval) (s : io) :
  ~ validation_error (fst (encode_text W m text s)).
Proof.
  intros (msg & H). revert H. rewrite encode_text_run.
  destruct (model_encode W m (PList [text])); cbn [fst]; discriminate.
Qed.

(** Neither does the serializer: a [ValueError] of the [try] body comes
    from the embedding step. *)
Lemma main_try_validation_error (W : World) (stdin : lib pyval) (s : io) :
  validation_error (fst (main_try W stdin s)) <-> validation_error (fst (embed W stdin s)).
Proof.
  unfold main_try, bind.
  destruct (embed W stdin s) as [[e|v] s1]; cbn [fst].
  { split; intros (msg & [= ->]); eexists; reflexivity. }
  pose proof (json_dump_dumps W v s1) as H. unfold dumped in H.
  destruct (dumps W v) as [t|].
  - rewrite H. cbn [fst]. split; intros (msg & Hm); discriminate.
  - destruct H as (x & t & H). rewrite H. cbn [fst].
    split; intros (msg & Hm); discriminate.
Qed.

(** Every JSON object goes one of the six ways. *)
Lemma embed_request_case (W : World) (kvs : list (string * pyval)) :
  request_case W kvs (embed W (request kvs) io0).
Proof.
  unfold request. rewrite embed_request. cbv zeta.
  destruct (truthy (dict_get kvs "mode" PNone)) eqn:Ht; cbn [negb].
  2: now apply MissingMode.
  destruct (SentenceTransformer W MODEL_NAME) as [e|m] eqn:Hl.
  1: now apply ModelFailed.
  destruct (eq_str (dict_get kvs "mode" PNone) "image") eqn:Hi.
  - apply eq_str_true in Hi.
    destruct (truthy (dict_get kvs "imageBase64" PNone)) eqn:Hb; cbn [negb].
    + now apply (ImagePath W kvs m).
    + now apply (MissingImage W kvs m).
  - apply eq_str_false in Hi.
    destruct (eq_str (dict_get kvs "mode" PNone) "text") eqn:Hx.
    + apply eq_str_true in Hx. now apply (TextPath W kvs m).
    + apply eq_str_false in Hx. now apply (UnsupportedMode W kvs m).
Qed.

(** ** Sample runs *)

Example run_text :
  main demo_world (request [("mode", PStr "text"); ("text", PStr "a dog")]) =
  {| exit_code := 0; out := "[-1p-2, 1p-1]"; err := "";
     log := [EvLoadModel "clip-ViT-B-32";
             EvEncode (Model "clip-ViT-B-32") (PList [PStr "a dog"])] |}.
Proof. reflexivity. Qed.

Example run_image :
  main demo_world (request [("mode", PStr "image"); ("imageBase64", PStr "aGk=")]) =
  {| exit_code := 0; out := "[1p-1, -1p-2]"; err := "";
     log := [EvLoadModel "clip-ViT-B-32"; EvB64Decode (PStr "aGk=");
             EvImageOpen [97; 71; 107; 61]%Z;
             EvConvert (Image "RGBA" (640, 480)%Z [97; 71; 107; 61]%Z) "RGB";
             EvResize (Image "RGB" (640, 480)%Z [97; 71; 107; 61]%Z) (224, 224)%Z;
             EvEncode (Model "clip-ViT-B-32")
                      (PImage (Image "RGB" (224, 224)%Z [97; 71; 107; 61]%Z))] |}.
Proof. reflexivity. Qed.

Example run_not_json :
  main demo_world (inl (PyExc "JSONDecodeError" "Expecting value: line 1 column 1 (char 0)")) =
  {| exit_code := 1; out := "";
     err := "Expecting value: line 1 column 1 (char 0)" ++ newline; log := [] |}.
Proof. reflexivity. Qed.

Example run_not_an_object :
  main demo_world (inr (PList [PInt 1])) =
  {| exit_code := 1; out := "";
     err := "'list' object has no attribute 'get'" ++ newline; log := [] |}.
Proof. reflexivity. Qed.

Example run_no_mode :
  main demo_world (request [("text", PStr "a dog")]) =
  {| exit_code := 1; out := ""; err := "Missing mode" ++ newline; log := [] |}.
Proof. reflexivity. Qed.

Example run_image_without_payload :
  main demo_world (request [("mode", PStr "image")]) =
  {| exit_code := 1; out := ""; err := "Missing imageBase64" ++ newline;
     log := [EvLoadModel "clip-ViT-B-32"] |}.
Proof. reflexivity. Qed.

Example run_image_payload_not_a_string :
  main demo_world (request [("mode", PStr "image"); ("imageBase64", PInt 3)]) =
  {| exit_code := 1; out := "";
     err := "argument should be a bytes-like object or ASCII string, not 'int'" ++ newline;
     log := [EvLoadModel "clip-ViT-B-32"; EvB64Decode (PInt 3)] |}.
Proof. reflexivity. Qed.

Example run_image_not_a_picture :
  main blind_world (request [("mode", PStr "image"); ("imageBase64", PStr "aGk=")]) =
  {| exit_code := 1; out := ""; err := "Incorrect padding" ++ newline;
     log := [EvLoadModel "clip-ViT-B-32"; EvB64Decode (PStr "aGk=")] |}.
Proof. reflexivity. Qed.

Example run_mode_is_a_list :
  main demo_world (request [("mode", PList [PInt 3; PStr "a"; PDict [("k", PBool true)]])]) =
  {| exit_code := 1; out := "";
     err := "Unsupported mode: [3, 'a', {'k': True}]" ++ newline;
     log := [EvLoadModel "clip-ViT-B-32"] |}.
Proof. reflexivity. Qed.

(** * The request decoder *)

(** C3, as stated, fails in both directions.  An image request whose
    [imageBase64] is the number 0 is rejected with a [ValueError] although
    the field is neither absent nor empty; and a request with an unknown
    mode raises no [ValueError] where the model cannot be built, the error
    of the model library coming first. *)
Lemma validation_differs_from_spec :
  (validation_error
     (fst (main_try demo_world
             (request [("mode", PStr "image"); ("imageBase64", PInt 0)]) io0))
   /\ ~ spec_invalid [("mode", PStr "image"); ("imageBase64", PInt 0)])
  /\ (spec_invalid [("mode", PStr "bogus")]
      /\ ~ validation_error
             (fst (main_try offline_world (request [("mode", PStr "bogus")]) io0))).
Proof.
  split; split.
  - eexists. reflexivity.
  - unfold spec_invalid. simpl. intros [H | [[_ [H | H]] | [H _]]];
      try discriminate. now apply H.
  - right; right. simpl. split; discriminate.
  - intros (msg & H). discriminate.
Qed.

(** C3, amended.  On a JSON object the script raises one of its own
    [ValueError]s exactly when [mode] is absent or falsy, or when the model
    could be built and either [mode] is "image" with [imageBase64] absent or
    falsy, or [mode] is neither "image" nor "text"; the run then exits with
    status 1 and leaves standard output empty.  Keys other than [mode],
    [imageBase64] and [text] have no effect on the run. *)
Theorem validation_error_iff (W : World) (kvs : list (string * pyval)) :
  (validation_error (fst (main_try W (request kvs) io0)) <-> invalid W kvs)
  /\ (invalid W kvs ->
      exit_code (main W (request kvs)) = 1%Z /\ out (main W (request kvs)) = "")
  /\ (forall kvs',
         lookup "mode" kvs' = lookup "mode" kvs ->
         lookup "imageBase64" kvs' = lookup "imageBase64" kvs ->
         lookup "text" kvs' = lookup "text" kvs ->
         main W (request kvs') = main W (request kvs)).
Proof.
  assert (Hiff : validation_error (fst (embed W (request kvs) io0)) <-> invalid W kvs).
  { unfold invalid. cbv zeta.
    destruct (embed_request_case W kvs) as [Ht | e Ht Hl | m Hl Hm Hb | m Hl Hm Hb
                                            | m Hl Hm | m Ht Hl Hi Hx]; cbn [fst].
    - split; [intros _; now left | intros _; eexists; reflexivity].
    - split; [intros (msg & H); discriminate|].
      intros [H | [(m & H) _]]; congruence.
    - split; [intros _ | intros _; eexists; reflexivity].
      right. split; [eauto | left; split; assumption].
    - split; [intros H; now apply encode_image_raises in H|].
      rewrite Hm. intros [H | [_ [[_ H] | [H _]]]]; try discriminate; congruence.
    - split; [intros H; now apply encode_text_raises in H|].
      rewrite Hm. intros [H | [_ [[H _] | [_ H]]]]; try discriminate; congruence.
    - split; [intros _ | intros _; eexists; reflexivity].
      right. split; [eauto | right; split; assumption]. }
  split; [|split].
  - now rewrite main_try_validation_error.
  - intros Hinv. apply Hiff in Hinv. destruct Hinv as (msg & Hinv).
    rewrite main_embed.
    destruct (embed_request_case W kvs) as [Ht | e Ht Hl | m Hl Hm Hb | m Hl Hm Hb
                                            | m Hl Hm | m Ht Hl Hi Hx].
    1-3, 6: split; reflexivity.
    + exfalso. eapply encode_image_raises. eexists. exact Hinv.
    + exfalso. eapply encode_text_raises. eexists. exact Hinv.
  - intros kvs'. unfold request. apply main_three_keys.
Qed.

Lemma validation_error_iff_witness :
  exit_code (main demo_world (request [("mode", PStr "image"); ("imageBase64", PNone)])) = 1%Z
  /\ out (main demo_world (request [("mode", PStr "image"); ("imageBase64", PNone)])) = "".
Proof.
  apply (proj1 (proj2 (validation_error_iff demo_world
                         [("mode", PStr "image"); ("imageBase64", PNone)]))).
  right. split; [now exists (Model MODEL_NAME) | left; split; reflexivity].
Defined.

(** C9.  A request whose [mode] is present but falsy (the empty string, 0,
    false or null, and likewise 0.0, the empty list and the empty object) is
    rejected with the message "Missing mode" and exit status 1, before the
    model is built and before the mode is compared with the two supported
    ones. *)
Theorem falsy_mode_is_missing (W : World) (kvs : list (string * pyval)) (v : pyval) :
  lookup "mode" kvs = Some v ->
  truthy v = false ->
  main W (request kvs) =
  {| exit_code := 1; out := ""; err := "Missing mode" ++ newline; log := [] |}.
Proof.
  intros Hm Hv. unfold request. rewrite main_embed, embed_request.
  unfold dict_get. rewrite Hm. cbv zeta. rewrite Hv. reflexivity.
Qed.

Lemma falsy_mode_is_missing_witness :
  main demo_world (request [("text", PStr "hi"); ("mode", PInt 0)]) =
  {| exit_code := 1; out := ""; err := "Missing mode" ++ newline; log := [] |}.
Proof.
  apply (falsy_mode_is_missing demo_world [("text", PStr "hi"); ("mode", PInt 0)] (PInt 0));
    reflexivity.
Defined.

(** Substrings. *)
Lemma prefix_app (sub post : string) : String.prefix sub (sub ++ post) = true.
Proof.
  induction sub as [|c sub IH]; simpl.
  - now destruct post.
  - destruct (ascii_dec c c) as [_|N]; [exact IH | now elim N].
Qed.

Lemma contains_app (sub pre post : string) : contains sub (pre ++ sub ++ post) = true.
Proof.
  induction pre as [|c pre IH].
  - cbn [append]. destruct (sub ++ post) eqn:E; cbn [contains];
      rewrite <- E, prefix_app; reflexivity.
  - cbn [append contains]. rewrite IH. apply orb_true_r.
Qed.

(** C6, as stated, fails: where the model cannot be built, a request with an
    unsupported mode exits with status 1 on the message of the model
    library, which does not name the mode. *)
Lemma unsupported_mode_not_named_offline :
  main offline_world (request [("mode", PStr "unsupported")]) =
  {| exit_code := 1; out := ""; err := "model weights are not available" ++ newline;
     log := [EvLoadModel MODEL_NAME] |}
  /\ ~ spec_names_mode offline_world [("mode", PStr "unsupported")].
Proof.
  split; [reflexivity|]. intros [_ H]. vm_compute in H. discriminate.
Qed.

(** C6, amended.  A request whose [mode] is truthy and neither "image" nor
    "text" exits with status 1 and an empty standard output.  When the model
    could be built, standard error is "Unsupported mode: " followed by
    [str(mode)] and a newline, and so contains the mode; when it could not,
    standard error is the message of that failure. *)
Theorem unsupported_mode_message
        (W : World) (kvs : list (string * pyval)) (mode : pyval) :
  lookup "mode" kvs = Some mode ->
  truthy mode = true ->
  mode <> PStr "image" ->
  mode <> PStr "text" ->
  exit_code (main W (request kvs)) = 1%Z
  /\ out (main W (request kvs)) = ""
  /\ (forall m,
         SentenceTransformer W MODEL_NAME = inr m ->
         err (main W (request kvs)) = "Unsupported mode: " ++ py_str W mode ++ newline
         /\ contains (py_str W mode) (err (main W (request kvs))) = true)
  /\ (forall e,
         SentenceTransformer W MODEL_NAME = inl e ->
         err (main W (request kvs)) = exc_str e ++ newline).
Proof.
  intros Hm Ht Hi Hx. unfold request. rewrite main_embed, embed_request.
  unfold dict_get. rewrite Hm. cbv zeta. rewrite Ht.
  apply eq_str_false in Hi, Hx. rewrite Hi, Hx. cbn [negb].
  destruct (SentenceTransformer W MODEL_NAME) as [e|m].
  - split; [reflexivity | split; [reflexivity | split]].
    + intros m H. discriminate H.
    + now intros e' [= <-].
  - split; [reflexivity | split; [reflexivity | split]].
    + intros m' _. cbn [err str_exc]. rewrite append_assoc.
      split; [reflexivity | apply contains_app].
    + intros e H. discriminate H.
Qed.

Lemma unsupported_mode_message_witness :
  err (main demo_world (request [("mode", PStr "unsupported")])) =
  "Unsupported mode: unsupported" ++ newline.
Proof.
  refine (proj1 (proj1 (proj2 (proj2 (unsupported_mode_message demo_world
             [("mode", PStr "unsupported")] (PStr "unsupported")
             eq_refl eq_refl _ _))) (Model MODEL_NAME) eq_refl));
    discriminate.
Defined.

(** * The embedding adapter *)

(** C1.  An image request whose payload decodes to a picture: with the model
    built, the script base64-decodes the payload, opens the bytes as an
    image, converts it to mode RGB, resizes it to 224 by 224 whatever its own
    size, and calls [model.encode] once, on that one image; the embedding is
    what [tolist] makes of the answer (the answer itself when it has no such
    method).  These are the library calls of the run, in order. *)
Theorem image_request_pipeline
        (W : World) (kvs : list (string * pyval)) (b64 : string) (m : model)
        (bytes : list Z) (im : image) (px1 px2 : list Z) (r : pyval) :
  lookup "mode" kvs = Some (PStr "image") ->
  lookup "imageBase64" kvs = Some (PStr b64) ->
  b64 <> "" ->
  SentenceTransformer W MODEL_NAME = inr m ->
  b64decode_str W b64 = inr bytes ->
  Image_open W bytes = inr im ->
  convert_pixels W im "RGB" = inr px1 ->
  resize_pixels W (Image "RGB" (img_size im) px1) (224, 224)%Z = inr px2 ->
  model_encode W m (PImage (Image "RGB" (224, 224)%Z px2)) = inr r ->
  fst (embed W (request kvs) io0) = inr (if has_tolist r then tolist r else r)
  /\ log (main W (request kvs)) =
     [EvLoadModel MODEL_NAME; EvB64Decode (PStr b64); EvImageOpen bytes;
      EvConvert im "RGB"; EvResize (Image "RGB" (img_size im) px1) (224, 224)%Z;
      EvEncode m (PImage (Image "RGB" (224, 224)%Z px2))]
  /\ (forall t,
         dumps W (if has_tolist r then tolist r else r) = Some t ->
         exit_code (main W (request kvs)) = 0%Z
         /\ out (main W (request kvs)) = t
         /\ err (main W (request kvs)) = "").
Proof.
  intros Hm Hi Hne Hl Hb Ho Hc Hr He.
  assert (Hrun : embed W (request kvs) io0 =
                 encode_image W m (PStr b64) (logged io0 (EvLoadModel MODEL_NAME))).
  { unfold request. rewrite embed_request. unfold dict_get. rewrite Hm, Hi, Hl.
    cbn [truthy negb eq_str]. cbv zeta.
    destruct (String.eqb_spec b64 "") as [E|_]; [contradiction|reflexivity]. }
  assert (Hnorm : tolist r = if has_tolist r then tolist r else r)
    by (destruct r; reflexivity).
  rewrite main_log, main_embed, Hrun.
  rewrite (encode_image_run W m b64 _ bytes im px1 px2 r Hb Ho Hc Hr He).
  rewrite <- Hnorm. split; [reflexivity | split; [reflexivity|]].
  intros t Ht.
  match goal with
  | |- context [json_dump W (tolist r) ?s] =>
      pose proof (json_dump_dumps W (tolist r) s) as Hj
  end.
  unfold dumped in Hj. rewrite Ht in Hj. rewrite Hj.
  repeat split.
Qed.

Lemma image_request_pipeline_witness :
  fst (embed demo_world
         (request [("mode", PStr "image"); ("imageBase64", PStr "aGk=")]) io0) =
  inr (PList [PFloat half; PFloat quarter]).
Proof.
  apply (image_request_pipeline demo_world
           [("mode", PStr "image"); ("imageBase64", PStr "aGk=")] "aGk="
           (Model MODEL_NAME) (codes "aGk=")
           {| img_mode := "RGBA"; img_size := (640, 480)%Z; img_pixels := codes "aGk=" |}
           (codes "aGk=") (codes "aGk=")
           (PArray "ndarray" (PList [PFloat half; PFloat quarter])));
    solve [reflexivity | discriminate].
Defined.

(** C10.  In text mode the default applies to an absent key only: a [text]
    that is present goes to the batch encoder as it is, so that an explicit
    null is encoded as the batch [[None]], while an absent [text] is encoded
    as the batch of the empty string. *)
Theorem text_default_only_when_absent
        (W : World) (kvs : list (string * pyval)) (m : model) :
  lookup "mode" kvs = Some (PStr "text") ->
  SentenceTransformer W MODEL_NAME = inr m ->
  (lookup "text" kvs = Some PNone ->
   log (main W (request kvs)) = [EvLoadModel MODEL_NAME; EvEncode m (PList [PNone])])
  /\ (forall v, lookup "text" kvs = Some v ->
      log (main W (request kvs)) = [EvLoadModel MODEL_NAME; EvEncode m (PList [v])])
  /\ (lookup "text" kvs = None ->
      log (main W (request kvs)) = [EvLoadModel MODEL_NAME; EvEncode m (PList [PStr ""])]).
Proof.
  intros Hm Hl.
  assert (Hlog : log (main W (request kvs)) =
                 [EvLoadModel MODEL_NAME; EvEncode m (PList [dict_get kvs "text" (PStr "")])]).
  { unfold request. rewrite main_log, (main_text_request W kvs m Hm Hl), encode_text_run.
    destruct (model_encode W m _); reflexivity. }
  unfold dict_get in Hlog.
  repeat split; [intros Ht | intros v Ht | intros Ht]; rewrite Ht in Hlog; exact Hlog.
Qed.

Lemma text_default_only_when_absent_witness :
  log (main demo_world (request [("mode", PStr "text"); ("text", PNone)])) =
  [EvLoadModel MODEL_NAME; EvEncode (Model MODEL_NAME) (PList [PNone])].
Proof.
  apply (text_default_only_when_absent demo_world
           [("mode", PStr "text"); ("text", PNone)] (Model MODEL_NAME));
    reflexivity.
Defined.

(** C7.  A text request without a [text] field runs exactly as the same
    request with [text] set to the empty string; and when the model is built,
    encodes the batch of the empty string and the embedding has a JSON text,
    the run exits with status 0 with that text on standard output, after one
    encode call on the batch [[""]]. *)
Theorem text_omitted_is_empty_string (W : World) (kvs : list (string * pyval)) :
  lookup "mode" kvs = Some (PStr "text") ->
  lookup "text" kvs = None ->
  main W (request kvs) = main W (request (("text", PStr "") :: kvs))
  /\ forall m v t s,
       SentenceTransformer W MODEL_NAME = inr m ->
       encode_text W m (PStr "") (logged io0 (EvLoadModel MODEL_NAME)) = (inr v, s) ->
       dumps W v = Some t ->
       main W (request kvs) =
       {| exit_code := 0; out := t; err := "";
          log := [EvLoadModel MODEL_NAME; EvEncode m (PList [PStr ""])] |}.
Proof.
  intros Hm Ht. split.
  - unfold request. rewrite !main_embed, !embed_request. unfold dict_get.
    cbn [lookup String.eqb Ascii.eqb Bool.eqb]. rewrite Hm, Ht.
    cbn [truthy negb eq_str String.eqb Ascii.eqb Bool.eqb]. reflexivity.
  - intros m v t s Hl He Hd. unfold request.
    rewrite main_embed, (main_text_request W kvs m Hm Hl).
    unfold dict_get. rewrite Ht, He.
    pose proof (json_dump_dumps W v s) as Hj. unfold dumped in Hj.
    rewrite Hd in Hj. rewrite Hj.
    rewrite encode_text_run in He.
    destruct (model_encode W m (PList [PStr ""])); [discriminate|].
    injection He as _ <-. reflexivity.
Qed.

Lemma text_omitted_is_empty_string_witness :
  main demo_world (request [("mode", PStr "text")]) =
  {| exit_code := 0; out := "[-1p-2, 1p-1]"; err := "";
     log := [EvLoadModel MODEL_NAME; EvEncode (Model MODEL_NAME) (PList [PStr ""])] |}.
Proof.
  refine (proj2 (text_omitted_is_empty_string demo_world [("mode", PStr "text")]
                   eq_refl eq_refl)
                (Model MODEL_NAME) (PList [PFloat quarter; PFloat half])
                _ _ eq_refl eq_refl eq_refl).
Defined.

(** C2, as stated, fails: a result of two inner sequences is not a sequence
    containing one inner sequence, and yet the text path returns its first
    inner sequence instead of the result as it is. *)
Lemma encode_text_two_rows :
  model_encode (answering two_rows) (Model MODEL_NAME) (PList [PStr "hi"]) = inr two_rows
  /\ fst (encode_text (answering two_rows) (Model MODEL_NAME) (PStr "hi") io0) =
     inr (PList [PFloat half])
  /\ fst (encode_text (answering two_rows) (Model MODEL_NAME) (PStr "hi") io0) <>
     inr (spec_unwrap two_rows).
Proof.
  repeat split; try reflexivity. discriminate.
Qed.

(** C2, amended.  The text path calls [model.encode] once, on the batch
    [[text]], and nothing else.  With [r'] what [tolist] makes of the answer
    (the answer itself when it has no such method): if and only if [r'] is a
    non-empty list whose first item is a list, that first item is returned,
    whatever follows it; otherwise [r'] is returned as it is. *)
Theorem encode_text_unwraps_first_row
        (W : World) (m : model) (text : pyval) (s : io) :
  calls (snd (encode_text W m text s)) = (calls s ++ [EvEncode m (PList [text])])%list
  /\ forall r,
       model_encode W m (PList [text]) = inr r ->
       let r' := if has_tolist r then tolist r else r in
       (forall inner rest,
           r' = PList (PList inner :: rest) ->
           fst (encode_text W m text s) = inr (PList inner))
       /\ ((forall inner rest, r' <> PList (PList inner :: rest)) ->
           fst (encode_text W m text s) = inr r').
Proof.
  rewrite encode_text_run. split.
  - destruct (model_encode W m (PList [text])); reflexivity.
  - intros r Hr. rewrite Hr. cbv zeta. cbn [fst].
    set (r' := if has_tolist r then tolist r else r). split.
    + intros inner rest ->. reflexivity.
    + intros Hno. destruct r' as [| | | | | [|[] rest] | | | |]; try reflexivity.
      exfalso. eapply Hno. reflexivity.
Qed.

Lemma encode_text_unwraps_first_row_witness :
  fst (encode_text demo_world (Model MODEL_NAME) (PStr "hi") io0) =
  inr (PList [PFloat quarter; PFloat half]).
Proof.
  refine (proj1 (proj2 (encode_text_unwraps_first_row
                          demo_world (Model MODEL_NAME) (PStr "hi") io0)
                       (PArray "ndarray" (PList [PList [PFloat quarter; PFloat half]]))
                       eq_refl)
                [PFloat quarter; PFloat half] [] eq_refl).
Defined.

(** * The response encoder *)

(** The embedding step writes nothing on standard output. *)
Lemma encode_image_stdout (W : World) (m : model) (b : pyval) (s : io) :
  stdout (snd (encode_image W m b s)) = stdout s.
Proof.
  unfold encode_image, bind, b64decode, convert, resize, call, ret, logged.
  repeat break_match; reflexivity.
Qed.

Lemma encode_text_stdout (W : World) (m : model) (text : pyval) (s : io) :
  stdout (snd (encode_text W m text s)) = stdout s.
Proof.
  rewrite encode_text_run. destruct (model_encode W m (PList [text])); reflexivity.
Qed.

Lemma embed_stdout (W : World) (stdin : lib pyval) :
  stdout (snd (embed W stdin io0)) = "".
Proof.
  destruct stdin as [e|payload]; [reflexivity|].
  destruct payload; try reflexivity.
  change (inr (PDict kvs)) with (request kvs).
  destruct (embed_request_case W kvs); try reflexivity.
  - apply encode_image_stdout.
  - apply encode_text_stdout.
Qed.

(** C4, as stated, fails: when the embedding holds an object the JSON
    encoder rejects, the run fails with status 1 after the opening bracket
    has been written on standard output. *)
Lemma partial_output_on_encoder_failure :
  main (answering (PList [PObject "Tensor"]))
       (request [("mode", PStr "text"); ("text", PStr "hi")]) =
  {| exit_code := 1; out := "[";
     err := "Object of type Tensor is not JSON serializable" ++ newline;
     log := [EvLoadModel MODEL_NAME; EvEncode (Model MODEL_NAME) (PList [PStr "hi"])] |}
  /\ ~ all_or_nothing (answering (PList [PObject "Tensor"]))
         (request [("mode", PStr "text"); ("text", PStr "hi")])
         (main (answering (PList [PObject "Tensor"]))
               (request [("mode", PStr "text"); ("text", PStr "hi")])).
Proof.
  split; [reflexivity|].
  intros [[H _] | [_ [_ H]]]; discriminate.
Qed.

(** C4, amended.  Every run ends in one of three ways.  The embedding has a
    JSON text: that text, whole, is standard output, standard error is empty
    and the status is 0.  A stage before serialization raised: the message
    and a newline are standard error, standard output is empty and the status
    is 1.  The serializer rejected an object of the embedding: its message
    and a newline are standard error and the status is 1 (standard output
    then holds what was written before the object was met). *)
Theorem output_complete_or_failure (W : World) (stdin : lib pyval) :
  (exists v t,
      fst (embed W stdin io0) = inr v /\ dumps W v = Some t
      /\ exit_code (main W stdin) = 0%Z
      /\ out (main W stdin) = t
      /\ err (main W stdin) = "")
  \/ (exists e,
         fst (embed W stdin io0) = inl e
         /\ exit_code (main W stdin) = 1%Z
         /\ err (main W stdin) = str_exc e ++ newline
         /\ out (main W stdin) = "")
  \/ (exists v x,
         fst (embed W stdin io0) = inr v /\ dumps W v = None
         /\ exit_code (main W stdin) = 1%Z
         /\ err (main W stdin) = str_exc (not_serializable x) ++ newline).
Proof.
  rewrite main_embed. pose proof (embed_stdout W stdin) as Hs.
  destruct (embed W stdin io0) as [[e|v] s]; cbn [fst snd] in *.
  - right; left. exists e. rewrite Hs. repeat split.
  - pose proof (json_dump_dumps W v s) as H. unfold dumped in H.
    destruct (dumps W v) as [t|] eqn:E.
    + left. exists v, t. rewrite H. unfold emit. cbn [exit_code out err stdout].
      rewrite Hs. repeat split; assumption.
    + right; right. destruct H as (x & t & H). exists v, x. rewrite H.
      repeat split; assumption.
Qed.

(** * The life of the model *)

Lemma loads_app (a b : list event) : loads (a ++ b) = (loads a + loads b)%nat.
Proof. unfold loads. now rewrite filter_app, length_app. Qed.

Lemma encodes_app (a b : list event) : encodes (a ++ b) = (encodes a + encodes b)%nat.
Proof. unfold encodes. now rewrite filter_app, length_app. Qed.

(** The calls of the image path: no constructor call, at most one encode
    call, on the model it was given, and exactly one when it returns. *)
Lemma encode_image_calls (W : World) (m : model) (b : pyval) (s : io) :
  exists evs,
    calls (snd (encode_image W m b s)) = (calls s ++ evs)%list
    /\ loads evs = 0%nat
    /\ (encodes evs <= 1)%nat
    /\ (forall m' x, In (EvEncode m' x) evs -> m' = m)
    /\ (forall v, fst (encode_image W m b s) = inr v -> encodes evs = 1%nat).
Proof.
  unfold encode_image, bind, b64decode, convert, resize, call, ret, logged.
  repeat break_match; cbn [fst snd calls]; rewrite <- ?app_assoc; cbn [app];
    eexists; (split; [reflexivity|]);
    (split; [reflexivity|]);
    (split; [cbn; lia|]);
    (split; [intros m' x Hin | intros v Hv]);
    try discriminate; try reflexivity;
    repeat (destruct Hin as [Hin|Hin]; try discriminate);
    try contradiction; congruence.
Qed.

(** The calls of a JSON object request: none when [mode] is absent or
    falsy; otherwise the constructor call first, then at most one encode
    call, on the model just built, and exactly one when an embedding comes
    out. *)
Lemma request_calls (W : World) (kvs : list (string * pyval)) :
  (truthy (dict_get kvs "mode" PNone) = false
   /\ calls (snd (embed W (request kvs) io0)) = [])
  \/ (truthy (dict_get kvs "mode" PNone) = true
      /\ exists evs,
           calls (snd (embed W (request kvs) io0)) = EvLoadModel MODEL_NAME :: evs
           /\ loads evs = 0%nat
           /\ (encodes evs <= 1)%nat
           /\ (forall m x, In (EvEncode m x) evs -> SentenceTransformer W MODEL_NAME = inr m)
           /\ (forall v, fst (embed W (request kvs) io0) = inr v -> encodes evs = 1%nat)).
Proof.
  destruct (embed_request_case W kvs) as [Ht | e Ht Hl | m Hl Hm Hb | m Hl Hm Hb
                                          | m Hl Hm | m Ht Hl Hi Hx].
  - left. split; [assumption | reflexivity].
  - right. split; [assumption|]. exists []. cbn.
    repeat split; try lia; try contradiction; discriminate.
  - right. split; [now rewrite Hm|]. exists []. cbn.
    repeat split; try lia; try contradiction; discriminate.
  - right. split; [now rewrite Hm|].
    destruct (encode_image_calls W m (dict_get kvs "imageBase64" PNone) loaded)
      as (evs & Hc & Hn & Hle & Hin & Hret).
    exists evs. rewrite Hc. repeat split; try assumption.
    intros m' x H. now rewrite (Hin m' x H).
  - right. split; [now rewrite Hm|].
    exists [EvEncode m (PList [dict_get kvs "text" (PStr "")])].
    rewrite encode_text_run.
    split; [destruct (model_encode W m _); reflexivity|].
    repeat split; cbn; try lia.
    intros m' x [[= <- _] | []]. assumption.
  - right. split; [assumption|]. exists []. cbn.
    repeat split; try lia; try contradiction; discriminate.
Qed.

(** C5, as stated, fails: for a request with an unknown mode the model is
    built, the validation error is raised afterwards, and the model serves no
    encode call. *)
Lemma model_built_for_unknown_mode :
  main demo_world (request [("mode", PStr "bogus")]) =
  {| exit_code := 1; out := ""; err := "Unsupported mode: bogus" ++ newline;
     log := [EvLoadModel MODEL_NAME] |}
  /\ SentenceTransformer demo_world MODEL_NAME = inr (Model MODEL_NAME)
  /\ ~ spec_model_lifecycle demo_world (request [("mode", PStr "bogus")]).
Proof.
  split; [reflexivity | split; [reflexivity|]].
  intros [H _]. apply H; [discriminate|]. eexists. reflexivity.
Qed.

(** C5, amended.  In every run the model constructor is called at most once
    and [model.encode] at most once.  The constructor is called exactly when
    standard input holds a JSON object whose [mode] is truthy, that is once
    the check for a missing mode has passed and before the mode is compared
    with "image" and "text" and before [imageBase64] is looked at.  An encode
    call is made on the model the constructor returned, after the
    constructor call.  A run that exits with status 0 has made exactly one
    constructor call and exactly one encode call. *)
Theorem model_lifecycle (W : World) (stdin : lib pyval) :
  (loads (log (main W stdin)) <= 1)%nat
  /\ (encodes (log (main W stdin)) <= 1)%nat
  /\ (loads (log (main W stdin)) = 1%nat <->
      exists kvs, stdin = request kvs /\ truthy (dict_get kvs "mode" PNone) = true)
  /\ (forall m x,
         In (EvEncode m x) (log (main W stdin)) ->
         SentenceTransformer W MODEL_NAME = inr m
         /\ exists rest, log (main W stdin) = EvLoadModel MODEL_NAME :: rest)
  /\ (exit_code (main W stdin) = 0%Z ->
      loads (log (main W stdin)) = 1%nat /\ encodes (log (main W stdin)) = 1%nat).
Proof.
  match goal with
  | |- ?G =>
      assert (Hnone : calls (snd (embed W stdin io0)) = [] ->
                      (forall kvs, stdin = request kvs ->
                                   truthy (dict_get kvs "mode" PNone) = false) ->
                      (forall v, fst (embed W stdin io0) <> inr v) ->
                      G)
  end.
  2: {
    destruct stdin as [e|payload].
    { apply Hnone; [reflexivity | discriminate | discriminate]. }
    destruct payload as [| | | | | | kvs | | |];
      try (apply Hnone; [reflexivity | discriminate | discriminate]).
    change (inr (PDict kvs)) with (request kvs).
    destruct (request_calls W kvs)
      as [[Ht Hc] | [Ht (evs & Hc & Hn & Hle & Hin & Hret)]].
    - apply Hnone; [assumption | intros kvs' [= <-]; assumption|].
      intros v Hv. unfold request in Hv. rewrite embed_request in Hv.
      cbv zeta in Hv. rewrite Ht in Hv. discriminate.
    - rewrite main_log, Hc.
      change (EvLoadModel MODEL_NAME :: evs) with ([EvLoadModel MODEL_NAME] ++ evs)%list.
      rewrite loads_app, encodes_app, Hn. cbn [loads encodes filter is_load is_encode
                                                List.length app Nat.add].
      split; [lia | split; [assumption | split; [|split]]].
      + split; [intros _; now exists kvs | reflexivity].
      + intros m x [H | H]; [discriminate|]. split; [now apply (Hin m x) | now exists evs].
      + intros H0. apply main_exit_0 in H0. destruct H0 as (v & t & Hv & _).
        split; [reflexivity | now apply (Hret v)].
  }
  intros Hc Hm Hv. rewrite main_log, Hc. cbn.
  split; [lia | split; [lia | split; [|split]]].
  - split; [discriminate|]. intros (kvs & Hk & Ht). now rewrite (Hm kvs Hk) in Ht.
  - intros m x [].
  - intros H0. apply main_exit_0 in H0. destruct H0 as (v & t & H & _).
    now apply Hv in H.
Qed.

Lemma model_lifecycle_witness :
  loads (log (main demo_world (request [("mode", PStr "text"); ("text", PStr "hi")]))) = 1%nat
  /\ encodes (log (main demo_world (request [("mode", PStr "text"); ("text", PStr "hi")]))) = 1%nat.
Proof.
  apply (proj2 (proj2 (proj2 (proj2
           (model_lifecycle demo_world
              (request [("mode", PStr "text"); ("text", PStr "hi")])))))).
  reflexivity.
Defined.

(** * Determinism *)

(** The serializer only sees the world through the two string functions of
    the encoder. *)
Lemma dump_items_ext (dump1 dump2 : pyval -> M unit) (xs : list pyval) :
  Forall (fun x => forall s, dump1 x s = dump2 x s) xs ->
  forall first s, dump_items dump1 first xs s = dump_items dump2 first xs s.
Proof.
  induction 1 as [|x xs Hx _ IH]; intros first s; [reflexivity|].
  rewrite !dump_items_cons, Hx.
  destruct (dump2 x _) as [[e|u] s']; [reflexivity | apply IH].
Qed.

Lemma dump_pairs_ext (W1 W2 : World) (dump1 dump2 : pyval -> M unit)
      (kvs : list (string * pyval)) :
  (forall k, json_string W1 k = json_string W2 k) ->
  Forall (fun kv => forall s, dump1 (snd kv) s = dump2 (snd kv) s) kvs ->
  forall first s, dump_pairs W1 dump1 first kvs s = dump_pairs W2 dump2 first kvs s.
Proof.
  intros Hk. induction 1 as [|kv kvs Hx _ IH]; intros first s; [reflexivity|].
  rewrite !dump_pairs_cons, Hx, Hk.
  destruct (dump2 (snd kv) _) as [[e|u] s']; [reflexivity | apply IH].
Qed.

Lemma json_dump_ext (W1 W2 : World) :
  (forall f, float_repr W1 f = float_repr W2 f) ->
  (forall k, json_string W1 k = json_string W2 k) ->
  forall v st, json_dump W1 v st = json_dump W2 v st.
Proof.
  intros Hf Hk.
  induction v as [| [|] | | f | | xs IH | kvs IH | | |] using pyval_nested_ind;
    intros st; try reflexivity.
  - simpl. unfold json_float. destruct f; try reflexivity; now rewrite Hf.
  - simpl. now rewrite Hk.
  - destruct xs as [|x xs]; [reflexivity|].
    apply (dump_items_ext (json_dump W1) (json_dump W2) (x :: xs) IH).
  - destruct kvs as [|kv kvs]; [reflexivity|].
    apply (dump_pairs_ext W1 W2 (json_dump W1) (json_dump W2) (kv :: kvs) Hk IH).
Qed.

(** C8.  The outcome of a text request is a function of the request and of
    the model: in two worlds that build the same model from a name and whose
    models encode alike, the same text request yields the same embedding
    after the same calls, whatever the other libraries do; and with the same
    JSON encoder the two runs leave the same exit status, the same standard
    output and the same standard error. *)
Theorem text_run_is_deterministic (W1 W2 : World) (kvs : list (string * pyval)) :
  lookup "mode" kvs = Some (PStr "text") ->
  (forall name, SentenceTransformer W1 name = SentenceTransformer W2 name) ->
  (forall m x, model_encode W1 m x = model_encode W2 m x) ->
  embed W1 (request kvs) io0 = embed W2 (request kvs) io0
  /\ ((forall f, float_repr W1 f = float_repr W2 f) ->
      (forall k, json_string W1 k = json_string W2 k) ->
      main W1 (request kvs) = main W2 (request kvs)).
Proof.
  intros Hm Hl He.
  assert (Hrun : embed W1 (request kvs) io0 = embed W2 (request kvs) io0).
  { unfold request. rewrite !embed_request. unfold dict_get. rewrite Hm, Hl.
    cbn [truthy negb eq_str String.eqb Ascii.eqb Bool.eqb]. cbv zeta.
    destruct (SentenceTransformer W2 MODEL_NAME) as [e|m]; [reflexivity|].
    now rewrite !encode_text_run, He. }
  split; [exact Hrun|].
  intros Hf Hk. rewrite !main_embed, Hrun.
  destruct (embed W2 (request kvs) io0) as [[e|v] s]; [reflexivity|].
  now rewrite (json_dump_ext W1 W2 Hf Hk).
Qed.

Lemma text_run_is_deterministic_witness :
  main demo_world (request [("mode", PStr "text"); ("text", PStr "a photo of a dog")]) =
  main blind_world (request [("mode", PStr "text"); ("text", PStr "a photo of a dog")]).
Proof.
  refine (proj2 (text_run_is_deterministic demo_world blind_world
                   [("mode", PStr "text"); ("text", PStr "a photo of a dog")]
                   eq_refl (fun _ => eq_refl) (fun _ _ => eq_refl))
                (fun _ => eq_refl) (fun _ => eq_refl)).
Defined.

(** * Further properties: failures *)

Lemma dict_get_some (kvs : list (string * pyval)) (k : string) (v default : pyval) :
  lookup k kvs = Some v -> dict_get kvs k default = v.
Proof. intros H. unfold dict_get. now rewrite H. Qed.

(** An image request, from the model to the image path. *)
Lemma main_image_request (W : World) (kvs : list (string * pyval)) (m : model) :
  lookup "mode" kvs = Some (PStr "image") ->
  SentenceTransformer W MODEL_NAME = inr m ->
  truthy (dict_get kvs "imageBase64" PNone) = true ->
  embed W (inr (PDict kvs)) io0 =
  encode_image W m (dict_get kvs "imageBase64" PNone) loaded.
Proof.
  intros Hm Hl Hb. rewrite embed_request. cbv zeta.
  rewrite (dict_get_some kvs "mode" (PStr "image") PNone Hm), Hl.
  cbn [truthy negb eq_str String.eqb Ascii.eqb Bool.eqb].
  rewrite Hb. reflexivity.
Qed.

(** A failure of the embedding step, as the run reports it. *)
Lemma main_embed_failure (W : World) (stdin : lib pyval) (e : exn) (s : io) :
  embed W stdin io0 = (inl e, s) ->
  main W stdin =
  {| exit_code := 1; out := ""; err := str_exc e ++ newline; log := calls s |}.
Proof.
  intros H. pose proof (embed_stdout W stdin) as Hs.
  rewrite main_embed, H. rewrite H in Hs. cbn [snd] in Hs. now rewrite Hs.
Qed.

(** X1.  Standard input that is not a JSON object, because it does not parse
    or because the document is a list, a string, a number, a boolean or
    null, ends the run with status 1 before any library is called: nothing
    on standard output, and on standard error the message of the parser or
    the [AttributeError] of the missing [get] method. *)
Theorem not_a_json_object (W : World) (stdin : lib pyval) :
  (forall kvs, stdin <> request kvs) ->
  exit_code (main W stdin) = 1%Z
  /\ out (main W stdin) = ""
  /\ log (main W stdin) = []
  /\ (forall e, stdin = inl e -> err (main W stdin) = exc_str e ++ newline)
  /\ (forall v, stdin = inr v ->
      err (main W stdin) =
      "'" ++ type_name v ++ "' object has no attribute 'get'" ++ newline).
Proof.
  intros Hno.
  destruct stdin as [e|payload].
  - split; [reflexivity | split; [reflexivity | split; [reflexivity | split]]].
    + now intros e' [= <-].
    + intros v H. discriminate H.
  - destruct payload as [| | | | | | kvs | | |];
      try (split; [reflexivity | split; [reflexivity | split; [reflexivity | split]]];
           [ intros e H; discriminate H
           | intros v [= <-]; simpl; rewrite ?append_assoc; reflexivity ]).
    now elim (Hno kvs).
Qed.

Lemma not_a_json_object_witness :
  err (main demo_world (inr (PStr "text"))) =
  "'str' object has no attribute 'get'" ++ newline.
Proof.
  refine (proj2 (proj2 (proj2 (proj2
            (not_a_json_object demo_world (inr (PStr "text")) _)))) (PStr "text") eq_refl).
  intros kvs H. discriminate H.
Defined.

(** X2.  A JSON object without a [mode] key is rejected with the message
    "Missing mode" and status 1, whatever else it holds, before the model is
    built. *)
Theorem absent_mode_is_missing (W : World) (kvs : list (string * pyval)) :
  lookup "mode" kvs = None ->
  main W (request kvs) =
  {| exit_code := 1; out := ""; err := "Missing mode" ++ newline; log := [] |}.
Proof.
  intros Hm. unfold request. rewrite main_embed, embed_request.
  unfold dict_get. rewrite Hm. reflexivity.
Qed.

Lemma absent_mode_is_missing_witness :
  main demo_world (request [("imageBase64", PStr "aGk="); ("text", PStr "a dog")]) =
  {| exit_code := 1; out := ""; err := "Missing mode" ++ newline; log := [] |}.
Proof.
  apply (absent_mode_is_missing demo_world
           [("imageBase64", PStr "aGk="); ("text", PStr "a dog")]).
  reflexivity.
Defined.

(** X3.  An image request whose [imageBase64] is absent or falsy, once the
    model is built, is rejected with the message "Missing imageBase64" and
    status 1; neither the base64 decoder nor Pillow nor the encoder is
    called. *)
Theorem image_without_payload (W : World) (kvs : list (string * pyval)) (m : model) :
  lookup "mode" kvs = Some (PStr "image") ->
  SentenceTransformer W MODEL_NAME = inr m ->
  truthy (dict_get kvs "imageBase64" PNone) = false ->
  main W (request kvs) =
  {| exit_code := 1; out := ""; err := "Missing imageBase64" ++ newline;
     log := [EvLoadModel MODEL_NAME] |}.
Proof.
  intros Hm Hl Hb. unfold request. rewrite main_embed, embed_request. cbv zeta.
  rewrite (dict_get_some kvs "mode" (PStr "image") PNone Hm), Hl.
  cbn [truthy negb eq_str String.eqb Ascii.eqb Bool.eqb]. rewrite Hb. reflexivity.
Qed.

Lemma image_without_payload_witness :
  main demo_world (request [("mode", PStr "image"); ("imageBase64", PStr "")]) =
  {| exit_code := 1; out := ""; err := "Missing imageBase64" ++ newline;
     log := [EvLoadModel MODEL_NAME] |}.
Proof.
  apply (image_without_payload demo_world
           [("mode", PStr "image"); ("imageBase64", PStr "")] (Model MODEL_NAME));
    reflexivity.
Defined.

(** X4.  When the model cannot be built, every request with a truthy [mode]
    fails alike, whatever the mode and the other fields: status 1, the
    message of the model library on standard error, nothing on standard
    output, and no call after the constructor's. *)
Theorem model_construction_failure
        (W : World) (kvs : list (string * pyval)) (e : py_exception) :
  truthy (dict_get kvs "mode" PNone) = true ->
  SentenceTransformer W MODEL_NAME = inl e ->
  main W (request kvs) =
  {| exit_code := 1; out := ""; err := exc_str e ++ newline;
     log := [EvLoadModel MODEL_NAME] |}.
Proof.
  intros Ht Hl. unfold request. rewrite main_embed, embed_request.
  cbv zeta. rewrite Ht, Hl. reflexivity.
Qed.

Lemma model_construction_failure_witness :
  main offline_world (request [("mode", PStr "image"); ("imageBase64", PStr "aGk=")]) =
  {| exit_code := 1; out := ""; err := "model weights are not available" ++ newline;
     log := [EvLoadModel MODEL_NAME] |}.
Proof.
  apply (model_construction_failure offline_world
           [("mode", PStr "image"); ("imageBase64", PStr "aGk=")]
           (PyExc "OSError" "model weights are not available"));
    reflexivity.
Defined.

(** X5.  A text request whose encode call raises: the run exits with status
    1 and the message of that exception, nothing is written on standard
    output, and the encode call was the only one after the constructor's. *)
Theorem text_encode_failure
        (W : World) (kvs : list (string * pyval)) (m : model) (e : py_exception) :
  lookup "mode" kvs = Some (PStr "text") ->
  SentenceTransformer W MODEL_NAME = inr m ->
  model_encode W m (PList [dict_get kvs "text" (PStr "")]) = inl e ->
  main W (request kvs) =
  {| exit_code := 1; out := ""; err := exc_str e ++ newline;
     log := [EvLoadModel MODEL_NAME;
             EvEncode m (PList [dict_get kvs "text" (PStr "")])] |}.
Proof.
  intros Hm Hl He. unfold request.
  apply main_embed_failure with (e := LibError e)
    (s := logged loaded (EvEncode m (PList [dict_get kvs "text" (PStr "")]))).
  rewrite (main_text_request W kvs m Hm Hl), encode_text_run, He. reflexivity.
Qed.

Lemma text_encode_failure_witness :
  main broken_encoder_world (request [("mode", PStr "text"); ("text", PStr "a dog")]) =
  {| exit_code := 1; out := ""; err := "CUDA out of memory" ++ newline;
     log := [EvLoadModel MODEL_NAME;
             EvEncode (Model MODEL_NAME) (PList [PStr "a dog"])] |}.
Proof.
  apply (text_encode_failure broken_encoder_world
           [("mode", PStr "text"); ("text", PStr "a dog")] (Model MODEL_NAME)
           (PyExc "RuntimeError" "CUDA out of memory"));
    reflexivity.
Defined.

(** X6.  An image request whose payload cannot be turned into a picture
    (the model being built): when the payload is not a string, when base64
    decoding fails, or when Pillow cannot open the bytes, the run exits with
    status 1 and the message of that failure, nothing is written on standard
    output, and the pipeline stops there: no later library is called, the
    encoder least of all. *)
Theorem image_payload_failure
        (W : World) (kvs : list (string * pyval)) (m : model) (b : pyval) :
  lookup "mode" kvs = Some (PStr "image") ->
  SentenceTransformer W MODEL_NAME = inr m ->
  lookup "imageBase64" kvs = Some b ->
  truthy b = true ->
  ((forall s, b <> PStr s) ->
   main W (request kvs) =
   {| exit_code := 1; out := "";
      err := ("argument should be a bytes-like object or ASCII string, not '"
              ++ type_name b ++ "'") ++ newline;
      log := [EvLoadModel MODEL_NAME; EvB64Decode b] |})
  /\ (forall s e,
         b = PStr s ->
         b64decode_str W s = inl e ->
         main W (request kvs) =
         {| exit_code := 1; out := ""; err := exc_str e ++ newline;
            log := [EvLoadModel MODEL_NAME; EvB64Decode b] |})
  /\ (forall s bytes e,
         b = PStr s ->
         b64decode_str W s = inr bytes ->
         Image_open W bytes = inl e ->
         main W (request kvs) =
         {| exit_code := 1; out := ""; err := exc_str e ++ newline;
            log := [EvLoadModel MODEL_NAME; EvB64Decode b; EvImageOpen bytes] |}).
Proof.
  intros Hm Hl Hb Ht.
  assert (Hrun : main W (request kvs) =
                 match encode_image W m b loaded with
                 | (inl e, s) =>
                     {| exit_code := 1; out := stdout s; err := str_exc e ++ newline;
                        log := calls s |}
                 | (inr v, s) => main W (request kvs)
                 end).
  { unfold request at 1. rewrite main_embed.
    rewrite (main_image_request W kvs m Hm Hl);
      rewrite (dict_get_some kvs "imageBase64" b PNone Hb); [|exact Ht].
    destruct (encode_image W m b loaded) as [[e|v] s] eqn:E; [reflexivity|].
    unfold request. rewrite main_embed, (main_image_request W kvs m Hm Hl);
      rewrite (dict_get_some kvs "imageBase64" b PNone Hb); [|exact Ht].
    now rewrite E. }
  rewrite Hrun. unfold encode_image, bind, b64decode, call.
  split; [|split].
  - intros Hns. destruct b; try reflexivity. now elim (Hns s).
  - intros s e -> He. rewrite He. reflexivity.
  - intros s bytes e -> Hd Ho. rewrite Hd; cbv beta iota. rewrite Ho. reflexivity.
Qed.

Lemma image_payload_failure_witness :
  main blind_world (request [("mode", PStr "image"); ("imageBase64", PStr "aGk=")]) =
  {| exit_code := 1; out := ""; err := "Incorrect padding" ++ newline;
     log := [EvLoadModel MODEL_NAME; EvB64Decode (PStr "aGk=")] |}.
Proof.
  refine (proj1 (proj2 (image_payload_failure blind_world
                          [("mode", PStr "image"); ("imageBase64", PStr "aGk=")]
                          (Model MODEL_NAME) (PStr "aGk=")
                          eq_refl eq_refl eq_refl eq_refl))
                "aGk=" (PyExc "binascii.Error" "Incorrect padding") eq_refl eq_refl).
Defined.

(** X7.  An image request whose picture was opened (the model being built):
    when the conversion to RGB, the resizing or the encode call raises, the
    run exits with status 1 and the message of that exception, nothing is
    written on standard output, and no later stage runs; in particular the
    encoder is not called unless both Pillow operations succeeded. *)
Theorem image_stage_failure
        (W : World) (kvs : list (string * pyval)) (m : model)
        (s : string) (bytes : list Z) (im : image) :
  lookup "mode" kvs = Some (PStr "image") ->
  SentenceTransformer W MODEL_NAME = inr m ->
  lookup "imageBase64" kvs = Some (PStr s) ->
  s <> "" ->
  b64decode_str W s = inr bytes ->
  Image_open W bytes = inr im ->
  (forall e,
      convert_pixels W im "RGB" = inl e ->
      main W (request kvs) =
      {| exit_code := 1; out := ""; err := exc_str e ++ newline;
         log := [EvLoadModel MODEL_NAME; EvB64Decode (PStr s); EvImageOpen bytes;
                 EvConvert im "RGB"] |})
  /\ (forall px1 e,
         convert_pixels W im "RGB" = inr px1 ->
         resize_pixels W (Image "RGB" (img_size im) px1) (224, 224)%Z = inl e ->
         main W (request kvs) =
         {| exit_code := 1; out := ""; err := exc_str e ++ newline;
            log := [EvLoadModel MODEL_NAME; EvB64Decode (PStr s); EvImageOpen bytes;
                    EvConvert im "RGB";
                    EvResize (Image "RGB" (img_size im) px1) (224, 224)%Z] |})
  /\ (forall px1 px2 e,
         convert_pixels W im "RGB" = inr px1 ->
         resize_pixels W (Image "RGB" (img_size im) px1) (224, 224)%Z = inr px2 ->
         model_encode W m (PImage (Image "RGB" (224, 224)%Z px2)) = inl e ->
         main W (request kvs) =
         {| exit_code := 1; out := ""; err := exc_str e ++ newline;
            log := [EvLoadModel MODEL_NAME; EvB64Decode (PStr s); EvImageOpen bytes;
                    EvConvert im "RGB";
                    EvResize (Image "RGB" (img_size im) px1) (224, 224)%Z;
                    EvEncode m (PImage (Image "RGB" (224, 224)%Z px2))] |}).
Proof.
  intros Hm Hl Hb Hne Hd Ho.
  assert (Ht : truthy (PStr s) = true).
  { cbn [truthy]. destruct (String.eqb_spec s ""); [contradiction | reflexivity]. }
  assert (Hrun : forall e st,
             encode_image W m (PStr s) loaded = (inl e, st) ->
             main W (request kvs) =
             {| exit_code := 1; out := stdout st; err := str_exc e ++ newline;
                log := calls st |}).
  { intros e st E. unfold request. rewrite main_embed.
    rewrite (main_image_request W kvs m Hm Hl);
      rewrite (dict_get_some kvs "imageBase64" (PStr s) PNone Hb); [|exact Ht].
    now rewrite E. }
  split; [|split].
  - intros e Hc. erewrite Hrun.
    2: { unfold encode_image, bind, b64decode, convert, call.
         rewrite Hd; cbv beta iota. rewrite Ho; cbv beta iota. rewrite Hc. reflexivity. }
    reflexivity.
  - intros px1 e Hc Hr. erewrite Hrun.
    2: { unfold encode_image, bind, b64decode, convert, resize, call.
         rewrite Hd; cbv beta iota. rewrite Ho; cbv beta iota.
         rewrite Hc; cbv beta iota. rewrite Hr. reflexivity. }
    reflexivity.
  - intros px1 px2 e Hc Hr He. erewrite Hrun.
    2: { unfold encode_image, bind, b64decode, convert, resize, call.
         rewrite Hd; cbv beta iota. rewrite Ho; cbv beta iota.
         rewrite Hc; cbv beta iota. rewrite Hr; cbv beta iota.
         cbn [img_mode]. rewrite He. reflexivity. }
    reflexivity.
Qed.

Lemma image_stage_failure_witness :
  main broken_encoder_world
       (request [("mode", PStr "image"); ("imageBase64", PStr "aGk=")]) =
  {| exit_code := 1; out := ""; err := "CUDA out of memory" ++ newline;
     log := [EvLoadModel MODEL_NAME; EvB64Decode (PStr "aGk=");
             EvImageOpen (codes "aGk=");
             EvConvert (Image "RGBA" (640, 480)%Z (codes "aGk=")) "RGB";
             EvResize (Image "RGB" (640, 480)%Z (codes "aGk=")) (224, 224)%Z;
             EvEncode (Model MODEL_NAME)
                      (PImage (Image "RGB" (224, 224)%Z (codes "aGk=")))] |}.
Proof.
  refine (proj2 (proj2 (image_stage_failure broken_encoder_world
                          [("mode", PStr "image"); ("imageBase64", PStr "aGk=")]
                          (Model MODEL_NAME) "aGk=" (codes "aGk=")
                          (Image "RGBA" (640, 480)%Z (codes "aGk="))
                          eq_refl eq_refl eq_refl _ eq_refl eq_refl))
                (codes "aGk=") (codes "aGk=")
                (PyExc "RuntimeError" "CUDA out of memory") eq_refl eq_refl eq_refl).
  discriminate.
Defined.

(** * Further properties: what the libraries are asked *)

(** The calls of the image path on a truthy payload: each with the expected
    arguments, in the order of the pipeline, and all five when an embedding
    comes out. *)
Lemma encode_image_events (W : World) (m : model) (b : pyval) (s : io) :
  truthy b = true ->
  exists evs,
    calls (snd (encode_image W m b s)) = (calls s ++ evs)%list
    /\ Forall expected_call evs
    /\ is_prefix (map kind evs) [KB64Decode; KOpen; KConvert; KResize; KEncode]
    /\ (In KEncode (map kind evs) ->
        map kind evs = [KB64Decode; KOpen; KConvert; KResize; KEncode])
    /\ (forall v, fst (encode_image W m b s) = inr v ->
        map kind evs = [KB64Decode; KOpen; KConvert; KResize; KEncode]).
Proof.
  intros Ht.
  unfold encode_image, bind, b64decode, convert, resize, call, ret, logged.
  repeat break_match; cbn [fst snd calls]; rewrite <- ?app_assoc; cbn [app];
    eexists; (split; [reflexivity|]);
    (split; [repeat constructor; cbn; auto|]);
    (split; [cbn [map kind]; eexists; cbn [app]; reflexivity|]);
    (split; [cbn [map kind]; intros Hin | intros v Hv]);
    try discriminate; try reflexivity;
    repeat (destruct Hin as [Hin|Hin]; try discriminate);
    try contradiction; congruence.
Qed.

(** The log of a run on a JSON object, way by way. *)
Lemma request_events (W : World) (kvs : list (string * pyval)) :
  log (main W (request kvs)) = []
  \/ log (main W (request kvs)) = [EvLoadModel MODEL_NAME]
  \/ (exists m text,
         SentenceTransformer W MODEL_NAME = inr m
         /\ dict_get kvs "mode" PNone = PStr "text"
         /\ log (main W (request kvs)) =
            [EvLoadModel MODEL_NAME; EvEncode m (PList [text])])
  \/ (exists m evs,
         SentenceTransformer W MODEL_NAME = inr m
         /\ dict_get kvs "mode" PNone = PStr "image"
         /\ truthy (dict_get kvs "imageBase64" PNone) = true
         /\ log (main W (request kvs)) = EvLoadModel MODEL_NAME :: evs
         /\ Forall expected_call evs
         /\ is_prefix (map kind evs) [KB64Decode; KOpen; KConvert; KResize; KEncode]
         /\ (In KEncode (map kind evs) ->
             map kind evs = [KB64Decode; KOpen; KConvert; KResize; KEncode])
         /\ (forall v, fst (embed W (request kvs) io0) = inr v ->
             map kind evs = [KB64Decode; KOpen; KConvert; KResize; KEncode])).
Proof.
  rewrite main_log.
  destruct (embed_request_case W kvs) as [Ht | e Ht Hl | m Hl Hm Hb | m Hl Hm Hb
                                          | m Hl Hm | m Ht Hl Hi Hx].
  - now left.
  - right; now left.
  - right; now left.
  - right; right; right.
    destruct (encode_image_events W m (dict_get kvs "imageBase64" PNone) loaded Hb)
      as (evs & Hc & Hargs & Hpre & Henc & Hret).
    exists m, evs. rewrite Hc. repeat split; assumption.
  - right; right; left. exists m, (dict_get kvs "text" (PStr "")).
    rewrite encode_text_run.
    repeat split; try assumption.
    destruct (model_encode W m _); reflexivity.
  - right; now left.
Qed.

(** The log of a run on anything else is empty. *)
Lemma other_input_events (W : World) (stdin : lib pyval) :
  (forall kvs, stdin <> request kvs) -> log (main W stdin) = [].
Proof.
  intros Hno. rewrite main_log.
  destruct stdin as [e|payload]; [reflexivity|].
  destruct payload; try reflexivity. now elim (Hno kvs).
Qed.

Lemma request_or_not (stdin : lib pyval) :
  (exists kvs, stdin = request kvs) \/ (forall kvs, stdin <> request kvs).
Proof.
  destruct stdin as [e|payload]; [right; discriminate|].
  destruct payload; try (right; discriminate). left. now eexists.
Qed.

(** X8.  Whatever standard input holds and whatever the libraries answer,
    the script only ever asks them the following: the model named
    clip-ViT-B-32; the base64 decoding of a truthy payload; a conversion to
    mode RGB; a resizing to 224 by 224, of an RGB image; and an encoding
    either of an RGB image of 224 by 224 pixels or of a batch of exactly one
    item. *)
Theorem library_calls_are_well_formed (W : World) (stdin : lib pyval) :
  Forall expected_call (log (main W stdin)).
Proof.
  destruct (request_or_not stdin) as [(kvs & ->) | Hno].
  2: { rewrite (other_input_events W stdin Hno). constructor. }
  destruct (request_events W kvs)
    as [H | [H | [(m & text & _ & _ & H)
                 | (m & evs & _ & _ & _ & H & Hargs & _)]]]; rewrite H.
  - constructor.
  - repeat constructor.
  - repeat constructor.
  - constructor; [reflexivity | assumption].
Qed.

(** X9.  The library calls of a run are an initial part of one of two fixed
    sequences: constructor, base64 decoder, [Image.open], [convert],
    [resize], [encode] for an image request, and constructor, [encode] for a
    text request, which therefore never reaches the base64 decoder or
    Pillow.  The encoder is only ever the last call of a whole sequence: an
    image is not encoded unless it was decoded, opened, converted and
    resized before. *)
Theorem library_calls_are_sequential (W : World) (stdin : lib pyval) :
  (is_prefix (map kind (log (main W stdin))) image_calls
   \/ is_prefix (map kind (log (main W stdin))) text_calls)
  /\ (forall kvs,
         stdin = request kvs ->
         lookup "mode" kvs = Some (PStr "text") ->
         is_prefix (map kind (log (main W stdin))) text_calls)
  /\ (In KEncode (map kind (log (main W stdin))) ->
      map kind (log (main W stdin)) = image_calls
      \/ map kind (log (main W stdin)) = text_calls).
Proof.
  destruct (request_or_not stdin) as [(kvs & ->) | Hno].
  2: { rewrite (other_input_events W stdin Hno). cbn [map].
       split; [left; now eexists | split].
       - intros kvs H. now elim (Hno kvs).
       - intros []. }
  destruct (request_events W kvs)
    as [H | [H | [(m & text & _ & Hm & H)
                 | (m & evs & _ & Hm & _ & H & _ & (rest & Hpre) & Henc & _)]]];
    rewrite H; cbn [map kind].
  - split; [left; now eexists | split].
    + intros kvs' _ _. now eexists.
    + intros [].
  - split; [left; now eexists | split].
    + intros kvs' _ _. now eexists.
    + intros [H0 | []]. discriminate.
  - split; [right; now exists [] | split].
    + intros kvs' _ _. now exists [].
    + intros _. now right.
  - split; [left; exists rest; unfold image_calls; cbn [app]; now rewrite Hpre | split].
    + intros kvs' [= <-] Ht.
      rewrite (dict_get_some kvs "mode" (PStr "text") PNone Ht) in Hm. discriminate.
    + intros [H0 | Hin]; [discriminate|]. left. unfold image_calls.
      now rewrite (Henc Hin).
Qed.

Lemma library_calls_are_sequential_witness :
  is_prefix
    (map kind (log (main blind_world
                      (request [("mode", PStr "text"); ("imageBase64", PStr "aGk=")]))))
    text_calls.
Proof.
  apply (proj1 (proj2 (library_calls_are_sequential blind_world
                         (request [("mode", PStr "text"); ("imageBase64", PStr "aGk=")])))
               [("mode", PStr "text"); ("imageBase64", PStr "aGk=")]);
    reflexivity.
Defined.

(** * Further properties: requests and results *)

(** X10.  A text request is served from [mode] and [text] alone and an image
    request from [mode] and [imageBase64] alone: the field of the other mode,
    like any further field, changes nothing in the run. *)
Theorem other_mode_field_is_ignored (W : World) (kvs kvs' : list (string * pyval)) :
  (lookup "mode" kvs = Some (PStr "text") ->
   lookup "mode" kvs' = Some (PStr "text") ->
   lookup "text" kvs' = lookup "text" kvs ->
   main W (request kvs') = main W (request kvs))
  /\ (lookup "mode" kvs = Some (PStr "image") ->
      lookup "mode" kvs' = Some (PStr "image") ->
      lookup "imageBase64" kvs' = lookup "imageBase64" kvs ->
      main W (request kvs') = main W (request kvs)).
Proof.
  split; intros Hm Hm' Hf; unfold request; rewrite !main_embed, !embed_request;
    cbv zeta;
    rewrite (dict_get_some kvs "mode" _ PNone Hm), (dict_get_some kvs' "mode" _ PNone Hm');
    cbn [truthy negb eq_str String.eqb Ascii.eqb Bool.eqb];
    unfold dict_get; rewrite Hf; reflexivity.
Qed.

Lemma other_mode_field_is_ignored_witness :
  main demo_world (request [("mode", PStr "text"); ("text", PStr "a dog");
                            ("imageBase64", PInt 0)]) =
  main demo_world (request [("text", PStr "a dog"); ("mode", PStr "text")]).
Proof.
  apply (proj1 (other_mode_field_is_ignored demo_world
                  [("text", PStr "a dog"); ("mode", PStr "text")]
                  [("mode", PStr "text"); ("text", PStr "a dog");
                   ("imageBase64", PInt 0)])); reflexivity.
Defined.

(** A list of numbers always has a JSON text. *)
Lemma texts_numbers (W : World) (xs : list pyval) :
  forallb is_number xs = true ->
  texts (dumps W) xs = Some (map (number_text W) xs).
Proof.
  induction xs as [|x xs IH]; [reflexivity|].
  cbn [forallb]. intros H. apply andb_prop in H. destruct H as [Hx Hxs].
  cbn [texts map]. fold (texts (dumps W)). rewrite (IH Hxs).
  destruct x; try discriminate; reflexivity.
Qed.

Lemma dumps_numbers (W : World) (xs : list pyval) :
  forallb is_number xs = true ->
  dumps W (PList xs) = Some (vector_text W xs).
Proof.
  intros H. cbn [dumps]. now rewrite (texts_numbers W xs H).
Qed.

(** A run whose embedding step returns a list of numbers prints it. *)
Lemma main_prints_numbers (W : World) (stdin : lib pyval) (xs : list pyval) (s : io) :
  embed W stdin io0 = (inr (PList xs), s) ->
  forallb is_number xs = true ->
  main W stdin =
  {| exit_code := 0; out := vector_text W xs; err := ""; log := calls s |}.
Proof.
  intros He Hn. pose proof (embed_stdout W stdin) as Hs.
  rewrite He in Hs. cbn [snd] in Hs.
  rewrite main_embed, He.
  pose proof (json_dump_dumps W (PList xs) s) as Hj. unfold dumped in Hj.
  rewrite (dumps_numbers W xs Hn) in Hj. rewrite Hj.
  unfold emit. cbn [stdout calls]. now rewrite Hs.
Qed.

(** X11.  A text request answered with numbers: whether the model returns
    one row of numbers (a matrix of one row, as a batch encoder does) or the
    bare vector, with or without a [tolist] method, and even when the vector
    is empty, the run exits with status 0 and standard output is the JSON
    array of these numbers, one per component and in order. *)
Theorem text_vector_is_printed
        (W : World) (kvs : list (string * pyval)) (m : model) (r : pyval)
        (xs : list pyval) :
  lookup "mode" kvs = Some (PStr "text") ->
  SentenceTransformer W MODEL_NAME = inr m ->
  model_encode W m (PList [dict_get kvs "text" (PStr "")]) = inr r ->
  forallb is_number xs = true ->
  (if has_tolist r then tolist r else r) = PList [PList xs]
  \/ (if has_tolist r then tolist r else r) = PList xs ->
  main W (request kvs) =
  {| exit_code := 0; out := vector_text W xs; err := "";
     log := [EvLoadModel MODEL_NAME;
             EvEncode m (PList [dict_get kvs "text" (PStr "")])] |}.
Proof.
  intros Hm Hl He Hn Hshape. unfold request.
  apply main_prints_numbers
    with (s := logged loaded (EvEncode m (PList [dict_get kvs "text" (PStr "")])));
    [|exact Hn].
  rewrite (main_text_request W kvs m Hm Hl), encode_text_run, He. cbv zeta.
  destruct Hshape as [-> | ->]; [reflexivity|].
  destruct xs as [|x xs]; [reflexivity|].
  cbn [forallb] in Hn. apply andb_prop in Hn. destruct Hn as [Hx _].
  destruct x; try discriminate; reflexivity.
Qed.

Lemma text_vector_is_printed_witness :
  main demo_world (request [("mode", PStr "text"); ("text", PStr "a dog")]) =
  {| exit_code := 0; out := vector_text demo_world [PFloat quarter; PFloat half];
     err := "";
     log := [EvLoadModel MODEL_NAME;
             EvEncode (Model MODEL_NAME) (PList [PStr "a dog"])] |}.
Proof.
  apply (text_vector_is_printed demo_world
           [("mode", PStr "text"); ("text", PStr "a dog")] (Model MODEL_NAME)
           (PArray "ndarray" (PList [PList [PFloat quarter; PFloat half]]))
           [PFloat quarter; PFloat half]);
    try reflexivity.
  left. reflexivity.
Defined.

(** X12.  An image request answered with numbers (the payload being a
    picture and the model built): when the model returns a vector of
    numbers, with or without a [tolist] method, the run exits with status 0
    and standard output is the JSON array of these numbers.  The image path
    does not unwrap: a matrix of one row is printed as a matrix, an array
    holding one array. *)
Theorem image_vector_is_printed
        (W : World) (kvs : list (string * pyval)) (b64 : string) (m : model)
        (bytes : list Z) (im : image) (px1 px2 : list Z) (r : pyval)
        (xs : list pyval) :
  lookup "mode" kvs = Some (PStr "image") ->
  lookup "imageBase64" kvs = Some (PStr b64) ->
  b64 <> "" ->
  SentenceTransformer W MODEL_NAME = inr m ->
  b64decode_str W b64 = inr bytes ->
  Image_open W bytes = inr im ->
  convert_pixels W im "RGB" = inr px1 ->
  resize_pixels W (Image "RGB" (img_size im) px1) (224, 224)%Z = inr px2 ->
  model_encode W m (PImage (Image "RGB" (224, 224)%Z px2)) = inr r ->
  forallb is_number xs = true ->
  ((if has_tolist r then tolist r else r) = PList xs ->
   exit_code (main W (request kvs)) = 0%Z
   /\ out (main W (request kvs)) = vector_text W xs)
  /\ ((if has_tolist r then tolist r else r) = PList [PList xs] ->
      exit_code (main W (request kvs)) = 0%Z
      /\ out (main W (request kvs)) = "[" ++ vector_text W xs ++ "]").
Proof.
  intros Hm Hi Hne Hl Hb Ho Hc Hr He Hn.
  assert (Ht : truthy (dict_get kvs "imageBase64" PNone) = true).
  { rewrite (dict_get_some kvs "imageBase64" (PStr b64) PNone Hi). cbn [truthy].
    destruct (String.eqb_spec b64 ""); [contradiction | reflexivity]. }
  assert (Hnorm : tolist r = if has_tolist r then tolist r else r)
    by (destruct r; reflexivity).
  assert (Hrun : exists s, stdout s = "" /\
                           embed W (request kvs) io0 = (inr (tolist r), s)).
  { eexists. split; [|unfold request; rewrite (main_image_request W kvs m Hm Hl Ht),
                       (dict_get_some kvs "imageBase64" (PStr b64) PNone Hi);
                       apply (encode_image_run W m b64 _ bytes im px1 px2 r Hb Ho Hc Hr He)].
    reflexivity. }
  destruct Hrun as (s & Hs & Hrun). rewrite <- Hnorm.
  split; intros Hshape; rewrite Hshape in Hrun.
  - rewrite (main_prints_numbers W (request kvs) xs s Hrun Hn). split; reflexivity.
  - rewrite main_embed, Hrun.
    pose proof (json_dump_dumps W (PList [PList xs]) s) as Hj. unfold dumped in Hj.
    assert (Hd : dumps W (PList [PList xs]) = Some ("[" ++ vector_text W xs ++ "]")).
    { change (dumps W (PList [PList xs]))
        with (match match dumps W (PList xs) with
                    | Some t => Some [t]
                    | None => None
                    end with
              | Some ts => Some ("[" ++ String.concat ", " ts ++ "]")
              | None => None
              end).
      now rewrite (dumps_numbers W xs Hn). }
    rewrite Hd in Hj. rewrite Hj. unfold emit. cbn [exit_code out stdout].
    rewrite Hs. split; reflexivity.
Qed.

Lemma image_vector_is_printed_witness :
  exit_code (main demo_world
               (request [("mode", PStr "image"); ("imageBase64", PStr "aGk=")])) = 0%Z
  /\ out (main demo_world
            (request [("mode", PStr "image"); ("imageBase64", PStr "aGk=")])) =
     vector_text demo_world [PFloat half; PFloat quarter].
Proof.
  refine (proj1 (image_vector_is_printed demo_world
                   [("mode", PStr "image"); ("imageBase64", PStr "aGk=")] "aGk="
                   (Model MODEL_NAME) (codes "aGk=")
                   (Image "RGBA" (640, 480)%Z (codes "aGk="))
                   (codes "aGk=") (codes "aGk=")
                   (PArray "ndarray" (PList [PFloat half; PFloat quarter]))
                   [PFloat half; PFloat quarter]
                   eq_refl eq_refl _ eq_refl eq_refl eq_refl eq_refl eq_refl eq_refl
                   eq_refl) eq_refl).
  discriminate.
Defined.

Lemma dict_get_not_none (kvs : list (string * pyval)) (k : string) (v : pyval) :
  dict_get kvs k PNone = v -> v <> PNone -> lookup k kvs = Some v.
Proof.
  unfold dict_get. destruct (lookup k kvs); intros H Hv; congruence.
Qed.

(** X13.  Status 0 is reserved for valid requests.  A run that exits with
    status 0 has left standard error empty, its input was a JSON object whose
    [mode] is the string "image", with a truthy [imageBase64], or the string
    "text", the model was built, and the library calls were the whole image
    sequence or the whole text sequence respectively. *)
Theorem success_means_valid_request (W : World) (stdin : lib pyval) :
  exit_code (main W stdin) = 0%Z ->
  err (main W stdin) = ""
  /\ exists kvs m,
       stdin = request kvs
       /\ SentenceTransformer W MODEL_NAME = inr m
       /\ ((lookup "mode" kvs = Some (PStr "image")
            /\ truthy (dict_get kvs "imageBase64" PNone) = true
            /\ map kind (log (main W stdin)) = image_calls)
           \/ (lookup "mode" kvs = Some (PStr "text")
               /\ map kind (log (main W stdin)) = text_calls)).
Proof.
  intros H0. split.
  { revert H0. unfold main. destruct (main_try W stdin io0) as [[e|u] s];
      [discriminate | reflexivity]. }
  apply main_exit_0 in H0. destruct H0 as (v & t & Hv & _).
  destruct (request_or_not stdin) as [(kvs & ->) | Hno].
  2: { exfalso. destruct stdin as [e|payload]; [discriminate|].
       destruct payload; try discriminate. now elim (Hno kvs). }
  exists kvs. rewrite main_log.
  destruct (embed_request_case W kvs) as [Ht | e Ht Hl | m Hl Hm Hb | m Hl Hm Hb
                                          | m Hl Hm | m Ht Hl Hi Hx];
    try discriminate.
  - exists m. split; [reflexivity | split; [assumption | left]].
    destruct (encode_image_events W m (dict_get kvs "imageBase64" PNone) loaded Hb)
      as (evs & Hc & _ & _ & _ & Hret).
    split; [apply dict_get_not_none; [assumption | discriminate] | split; [assumption|]].
    rewrite Hc. cbn [loaded logged calls io0 app map kind]. unfold image_calls.
    now rewrite (Hret v Hv).
  - exists m. split; [reflexivity | split; [assumption | right]].
    split; [apply dict_get_not_none; [assumption | discriminate]|].
    rewrite encode_text_run. destruct (model_encode W m _); reflexivity.
Qed.

Lemma success_means_valid_request_witness :
  err (main demo_world (request [("mode", PStr "text"); ("text", PStr "a dog")])) = "".
Proof.
  apply (proj1 (success_means_valid_request demo_world
                  (request [("mode", PStr "text"); ("text", PStr "a dog")]) eq_refl)).
Defined.
